(** * graph-client.ts: the Microsoft Graph request adapter

    A shallow embedding of [src/graph-client.ts] (class [GraphClient]):
    token resolution, the single refresh-and-retry cycle, error
    classification, body normalisation, ETag attachment and envelope
    formatting, followed by the properties of the adapter's contract.

    Conventions of the embedding.
    - A value of type [string | null | undefined] is an [option string];
      [None] stands for [null] and [undefined] alike, which [||], [!] and
      [if] cannot tell apart.  The empty string is [Some ""]: it is a
      present value that JavaScript treats as falsy.
    - A JSON value is a tree ([json]); objects keep their keys in
      enumeration order.  Numbers are restricted to integers: the adapter
      never inspects a number.
    - The collaborators ([authManager.getToken], [fetch], the imported
      [refreshAccessToken], [process.env]) and the built-in [JSON.parse]
      are fields of a [Runtime]; every theorem holds for every runtime.
      A collaborator that fails throws an [Error] (the [catch] blocks read
      its [message]); reading the body text of a response does not fail.
    - Asynchronous code runs to completion one call at a time, so a method
      is a function from the adapter's state to a result and a new state. *)

From Stdlib Require Import String Ascii List ZArith NArith Bool Lia.
From Stdlib Require Import DecimalString.
Import ListNotations.
Local Open Scope list_scope.
Local Open Scope string_scope.

(** ** JavaScript strings and truthiness *)

(** [c] as a one-character string. *)
Definition str1 (c : ascii) : string := String c EmptyString.

Definition dquote : ascii := ascii_of_nat 34.
Definition backslash : ascii := ascii_of_nat 92.
Definition newline : ascii := ascii_of_nat 10.

(** [!!s] for a string: only the empty string is falsy. *)
Definition nonempty (s : string) : bool :=
  match s with EmptyString => false | String _ _ => true end.

(** [!!x] for [x : string | null | undefined]. *)
Definition truthy (x : option string) : bool :=
  match x with Some s => nonempty s | None => false end.

(** [a || b] on [string | null | undefined]. *)
Definition or_else (a b : option string) : option string :=
  if truthy a then a else b.

(** [a || 'literal']: the result is always a string. *)
Definition or_default (a : option string) (d : string) : string :=
  match a with
  | Some s => if nonempty s then s else d
  | None => d
  end.

(** The string behind a truthy [x], for the branches guarded by [if (x)]
    or following [if (!x) throw]. *)
Definition as_truthy (x : option string) : option string :=
  match x with
  | Some s => if nonempty s then Some s else None
  | None => None
  end.

(** [x || false] for an optional boolean flag. *)
Definition flag (x : option bool) : bool :=
  match x with Some b => b | None => false end.

(** [hay.includes(needle)]. *)
Fixpoint includes (needle hay : string) : bool :=
  if String.prefix needle hay then true
  else match hay with
       | EmptyString => false
       | String _ rest => includes needle rest
       end.

(** [key.startsWith(p)]. *)
Definition startsWith (p key : string) : bool := String.prefix p key.

(** A number in a template literal. *)
Definition string_of_N (n : N) : string := NilZero.string_of_uint (N.to_uint n).
Definition string_of_Z (z : Z) : string := NilZero.string_of_int (Z.to_int z).

(** ASCII lower-casing, for header names. *)
Definition lower_ascii (c : ascii) : ascii :=
  let n := nat_of_ascii c in
  if (65 <=? n)%nat && (n <=? 90)%nat then ascii_of_nat (n + 32) else c.

Fixpoint toLowerCase (s : string) : string :=
  match s with
  | EmptyString => EmptyString
  | String c r => String (lower_ascii c) (toLowerCase r)
  end.

Fixpoint join (sep : string) (l : list string) : string :=
  match l with
  | [] => ""
  | [x] => x
  | x :: r => x ++ sep ++ join sep r
  end.

(** ** Objects as ordered key/value lists *)

Section Assoc.
Context {V : Type}.

(** [obj[key]]; [None] is [undefined]. *)
Fixpoint lookup (key : string) (o : list (string * V)) : option V :=
  match o with
  | [] => None
  | (k, v) :: r => if String.eqb k key then Some v else lookup key r
  end.

(** [key in obj] for an object without inherited keys of that name. *)
Definition has_key (key : string) (o : list (string * V)) : bool :=
  match lookup key o with Some _ => true | None => false end.

(** [obj[key] = v]: an existing key keeps its place, a new one goes last. *)
Fixpoint assign (key : string) (v : V) (o : list (string * V)) : list (string * V) :=
  match o with
  | [] => [(key, v)]
  | (k, v') :: r =>
      if String.eqb k key then (k, v) :: r else (k, v') :: assign key v r
  end.

(** [{...o, ...more}]. *)
Definition spread (o more : list (string * V)) : list (string * V) :=
  fold_left (fun acc kv => assign (fst kv) (snd kv) acc) more o.
End Assoc.

(** ** JSON values *)

#[local] Unset Elimination Schemes.
Inductive json : Type :=
| JNull
| JBool (b : bool)
| JNum (n : Z)
| JStr (s : string)
| JArr (items : list json)
| JObj (fields : list (string * json)).
#[local] Set Elimination Schemes.

(** Structural induction that reaches the values inside arrays and objects. *)
Fixpoint json_ind (P : json -> Prop)
    (HNull : P JNull) (HBool : forall b, P (JBool b))
    (HNum : forall n, P (JNum n)) (HStr : forall s, P (JStr s))
    (HArr : forall items, Forall P items -> P (JArr items))
    (HObj : forall fields, Forall (fun kv => P (snd kv)) fields -> P (JObj fields))
    (v : json) {struct v} : P v :=
  match v with
  | JNull => HNull
  | JBool b => HBool b
  | JNum n => HNum n
  | JStr s => HStr s
  | JArr items =>
      HArr items
        ((fix go (l : list json) : Forall P l :=
            match l with
            | [] => Forall_nil P
            | x :: r => Forall_cons x (json_ind P HNull HBool HNum HStr HArr HObj x) (go r)
            end) items)
  | JObj fields =>
      HObj fields
        ((fix go (l : list (string * json)) : Forall (fun kv => P (snd kv)) l :=
            match l with
            | [] => Forall_nil _
            | kv :: r =>
                Forall_cons kv
                  (json_ind P HNull HBool HNum HStr HArr HObj (snd kv)) (go r)
            end) fields)
  end.

(** [!!v]. *)
Definition truthy_json (v : json) : bool :=
  match v with
  | JNull => false
  | JBool b => b
  | JNum n => negb (n =? 0)%Z
  | JStr s => nonempty s
  | JArr _ | JObj _ => true
  end.

(** [typeof v === 'object']: true of [null], arrays and objects. *)
Definition typeof_object (v : json) : bool :=
  match v with
  | JNull | JArr _ | JObj _ => true
  | _ => false
  end.

(** *** JSON.stringify *)

Definition hex_digit (n : nat) : ascii :=
  if (n <? 10)%nat then ascii_of_nat (48 + n) else ascii_of_nat (87 + n).

(** One character inside a JSON string literal. *)
Definition escape_char (c : ascii) : string :=
  let n := nat_of_ascii c in
  if Ascii.eqb c dquote then String backslash (str1 dquote)
  else if Ascii.eqb c backslash then String backslash (str1 backslash)
  else if (n =? 8)%nat then String backslash "b"
  else if (n =? 9)%nat then String backslash "t"
  else if (n =? 10)%nat then String backslash "n"
  else if (n =? 12)%nat then String backslash "f"
  else if (n =? 13)%nat then String backslash "r"
  else if (n <? 32)%nat then
    String backslash ("u00" ++ str1 (hex_digit (n / 16)) ++ str1 (hex_digit (n mod 16)))
  else str1 c.

Fixpoint escape (s : string) : string :=
  match s with
  | EmptyString => EmptyString
  | String c r => escape_char c ++ escape r
  end.

Definition quote (s : string) : string := str1 dquote ++ escape s ++ str1 dquote.

(** [JSON.stringify(v)]. *)
Fixpoint JSON_stringify (v : json) : string :=
  match v with
  | JNull => "null"
  | JBool true => "true"
  | JBool false => "false"
  | JNum n => string_of_Z n
  | JStr s => quote s
  | JArr items => "[" ++ join "," (map JSON_stringify items) ++ "]"
  | JObj fields =>
      "{" ++ join "," (map (fun kv => match kv with
                                       | (k, x) => quote k ++ ":" ++ JSON_stringify x
                                       end) fields) ++ "}"
  end.

(** [JSON.stringify(v, null, 2)] at the indentation [ind]. *)
Fixpoint stringify_indent (v : json) (ind : string) {struct v} : string :=
  let ind' := ind ++ "  " in
  let sep := "," ++ str1 newline ++ ind' in
  match v with
  | JArr [] => "[]"
  | JArr items =>
      "[" ++ str1 newline ++ ind'
          ++ join sep (map (fun x => stringify_indent x ind') items)
          ++ str1 newline ++ ind ++ "]"
  | JObj [] => "{}"
  | JObj fields =>
      "{" ++ str1 newline ++ ind'
          ++ join sep (map (fun kv => match kv with
                                      | (k, x) => quote k ++ ": " ++ stringify_indent x ind'
                                      end) fields)
          ++ str1 newline ++ ind ++ "}"
  | other => JSON_stringify other
  end.

Definition JSON_stringify_2 (v : json) : string := stringify_indent v "".

(** [JSON.stringify] of a possibly undefined value: [undefined] is not
    serialised, the call returns [undefined]. *)
Definition JSON_stringify_opt (v : option json) : option string :=
  option_map JSON_stringify v.


(** ** The data model of the adapter *)

(** [Error]: what [throw] raises and [catch] reads [.message] of. *)
Record Error : Type := new_Error { message : string }.

(** [interface GraphRequestOptions] (lines 5-15). *)
Module Options.
Record t : Type := make {
  headers : option (list (string * string));
  method : option string;
  body : option string;
  rawResponse : option bool;
  includeHeaders : option bool;
  accessToken : option string;
  refreshToken : option string }.

(** [{}], the default of the [options] parameter. *)
Definition empty : t := make None None None None None None None.
End Options.

(** The request handed to [fetch(url, init)]. *)
Module Request.
Record t : Type := make {
  url : string;
  method : string;
  headers : list (string * string);
  body : option string }.
End Request.

(** The [Response] of [fetch]: what the adapter reads of it. *)
Module Response.
Record t : Type := make {
  status : N;
  statusText : string;
  headers : list (string * string);
  text : string }.

(** [response.ok]: the status is in the range 200-299. *)
Definition ok (r : t) : bool := ((200 <=? status r) && (status r <=? 299))%N.

(** [response.headers.get(name)]: names compare without case, several
    values of one name are joined. *)
Definition get (name : string) (r : t) : option string :=
  match filter (fun kv => String.eqb (toLowerCase (fst kv)) (toLowerCase name))
               (headers r) with
  | [] => None
  | found => Some (join ", " (map snd found))
  end.
End Response.

(** What the imported [refreshAccessToken] resolves to. *)
Record TokenResponse : Type := {
  access_token : option string;
  refresh_token : option string }.

(** [interface ContentItem] and [interface McpResponse] (lines 17-30).
    [text] is declared a string; [None] records that the expression stored
    there evaluated to [undefined]. *)
Record ContentItem : Type := {
  type : string;
  text : option string }.

Record McpResponse : Type := {
  content : list ContentItem;
  _meta : option (list (string * json));
  isError : option bool }.

(** The adapter's fields (lines 33-35); [authManager] is in the runtime. *)
Record GraphClient : Type := {
  accessToken : option string;
  refreshToken : option string }.

(** [new GraphClient(authManager)] (lines 34-39). *)
Definition constructor : GraphClient :=
  {| accessToken := None; refreshToken := None |}.

(** ** Effects *)

(** What a call does to the outside, in order.  [RefreshAttempt] marks the
    entry into the private method [refreshAccessToken]; the others are
    calls of a collaborator. *)
Inductive Event : Type :=
| GetToken
| Fetch (req : Request.t)
| RefreshAttempt (refreshToken : string)
| Refresh (refreshToken clientId clientSecret tenantId : string)
| LogInfo (endpoint : string) (options : Options.t)
| LogError (prefix : string) (e : Error).

(** The collaborators.  Each sees the events so far, so its answer may
    change from one call to the next. *)
Record Runtime : Type := {
  getToken : list Event -> Error + option string;
  fetch : list Event -> Request.t -> Error + Response.t;
  lib_refreshAccessToken :
    list Event -> string -> string -> string -> string -> Error + TokenResponse;
  env : string -> option string;
  JSON_parse : string -> option json }.

Record State : Type := {
  this : GraphClient;
  trace : list Event }.

(** A method: it returns or throws, and leaves a state. *)
Definition M (A : Type) : Type := State -> (Error + A) * State.

Definition ret {A} (a : A) : M A := fun st => (inr a, st).
Definition throw {A} (e : Error) : M A := fun st => (inl e, st).

Definition bind {A B} (m : M A) (k : A -> M B) : M B :=
  fun st =>
    match m st with
    | (inr a, st') => k a st'
    | (inl e, st') => (inl e, st')
    end.

(** [try { m } catch (error) { handler }]. *)
Definition try_catch {A} (m : M A) (handler : Error -> M A) : M A :=
  fun st =>
    match m st with
    | (inr a, st') => (inr a, st')
    | (inl e, st') => handler e st'
    end.

Declare Scope js_scope.
Delimit Scope js_scope with js.
Notation "x <- m ;; k" := (bind m (fun x => k))
  (at level 61, m at next level, right associativity) : js_scope.
Notation "m ;; k" := (bind m (fun _ => k))
  (at level 61, right associativity) : js_scope.
Local Open Scope js_scope.

Definition get_this : M GraphClient := fun st => (inr (this st), st).
Definition put_this (c : GraphClient) : M unit :=
  fun st => (inr tt, {| this := c; trace := trace st |}).

Definition emit (e : Event) : M unit :=
  fun st => (inr tt, {| this := this st; trace := (trace st ++ [e])%list |}).

(** Calling a collaborator records the call and yields its answer. *)
Definition call {A} (e : Event) (answer : list Event -> Error + A) : M A :=
  fun st => (answer (trace st), {| this := this st; trace := (trace st ++ [e])%list |}).

Definition lift {A} (r : Error + A) : M A := fun st => (r, st).

(** ** class GraphClient *)

(** The two error messages of lines 76-88. *)
Definition scope_error_message (r : Response.t) (errorText : string) : string :=
  "Microsoft Graph API scope error: " ++ string_of_N (Response.status r) ++ " "
    ++ Response.statusText r ++ " - " ++ errorText
    ++ ". This tool requires organization mode. Please restart with --org-mode flag.".

Definition api_error_message (r : Response.t) (errorText : string) : string :=
  "Microsoft Graph API error: " ++ string_of_N (Response.status r) ++ " "
    ++ Response.statusText r ++ " - " ++ errorText.

(** [makeRequest], lines 73-89: the checks on the response that is kept. *)
Definition classifyResponse (response : Response.t) : Error + unit :=
  if (Response.status response =? 403)%N then
    let errorText := Response.text response in
    if includes "scope" errorText || includes "permission" errorText then
      inl (new_Error (scope_error_message response errorText))
    else
      inl (new_Error (api_error_message response errorText))
  else if negb (Response.ok response) then
    inl (new_Error (api_error_message response (Response.text response)))
  else inr tt.

(** [{ ...result, _etag: v }]. *)
Definition with_etag (result : list (string * json)) (v : string) : json :=
  JObj (assign "_etag" (JStr v) result).

(** [performRequest], lines 145-157: the URL and the [init] of [fetch]. *)
Definition buildRequest (endpoint accessToken0 : string) (options : Options.t)
  : Request.t :=
  let url := "https://graph.microsoft.com/v1.0" ++ endpoint in
  let headers :=
    spread [("Authorization", "Bearer " ++ accessToken0);
            ("Content-Type", "application/json")]
           (match Options.headers options with Some h => h | None => [] end) in
  Request.make url (or_default (Options.method options) "GET")
               headers (Options.body options).

(** [setOAuthTokens], lines 41-44. *)
Definition setOAuthTokens (a : string) (r : option string) : M unit :=
  put_this {| accessToken := Some a; refreshToken := or_else r None |}.

Section Methods.
Variable rt : Runtime.

(** [makeRequest], lines 91-102: the body text as a value. *)
Definition normalizeBody (text : string) : json :=
  if negb (nonempty text) then JObj [("message", JStr "OK!")]
  else match JSON_parse rt text with
       | Some parsed => parsed
       | None => JObj [("message", JStr "OK!"); ("rawResponse", JStr text)]
       end.

(** [makeRequest], lines 104-117: the ETag of the response on a plain
    object, when [includeHeaders] is set. *)
Definition attachEtag (options : Options.t) (response : Response.t) (result : json) : json :=
  if flag (Options.includeHeaders options) then
    let etag := or_else (Response.get "ETag" response) (Response.get "etag" response) in
    match result with
    | JObj fields => with_etag fields (or_default etag "no-etag-found")
    | _ => result
    end
  else result.

(** [makeRequest], lines 73-117, on the response that is kept. *)
Definition finishRequest (options : Options.t) (response : Response.t) : Error + json :=
  match classifyResponse response with
  | inl e => inl e
  | inr _ => inr (attachEtag options response (normalizeBody (Response.text response)))
  end.

(** [refreshAccessToken], lines 124-138. *)
Definition refreshAccessToken (refreshToken0 : string) : M unit :=
  emit (RefreshAttempt refreshToken0) ;;
  let tenantId := or_default (env rt "MS365_MCP_TENANT_ID") "common" in
  let clientId :=
    or_default (env rt "MS365_MCP_CLIENT_ID") "084a3e9f-a9f4-43f7-89f9-d229cf97853e" in
  match as_truthy (env rt "MS365_MCP_CLIENT_SECRET") with
  | None => throw (new_Error "MS365_MCP_CLIENT_SECRET not configured")
  | Some clientSecret =>
      response <- call (Refresh refreshToken0 clientId clientSecret tenantId)
                       (fun h => lib_refreshAccessToken rt h refreshToken0 clientId
                                   clientSecret tenantId) ;;
      self <- get_this ;;
      put_this {| accessToken := access_token response;
                  refreshToken := refreshToken self |} ;;
      if truthy (refresh_token response) then
        self <- get_this ;;
        put_this {| accessToken := accessToken self;
                    refreshToken := refresh_token response |}
      else ret tt
  end.

(** [performRequest], lines 140-158. *)
Definition performRequest (endpoint accessToken0 : string) (options : Options.t)
  : M Response.t :=
  let req := buildRequest endpoint accessToken0 options in
  call (Fetch req) (fun h => fetch rt h req).

(** [makeRequest], lines 48-49: the [||] chain; [getToken] is awaited
    only when both operands before it are falsy. *)
Definition resolveAccessToken (options : Options.t) : M (option string) :=
  self <- get_this ;;
  if truthy (Options.accessToken options) then ret (Options.accessToken options)
  else if truthy (accessToken self) then ret (accessToken self)
  else call GetToken (getToken rt).

(** [makeRequest], lines 57-71: the request and its one retry. *)
Definition requestWithRetry (endpoint accessToken0 : string)
    (refreshToken0 : option string) (options : Options.t) : M Response.t :=
  response <- performRequest endpoint accessToken0 options ;;
  if (Response.status response =? 401)%N then
    match as_truthy refreshToken0 with
    | Some r =>
        refreshAccessToken r ;;
        self <- get_this ;;
        match as_truthy (or_else (accessToken self) (Some accessToken0)) with
        | None => throw (new_Error "Failed to refresh access token")
        | Some accessToken1 => performRequest endpoint accessToken1 options
        end
    | None => ret response
    end
  else ret response.

(** [makeRequest], lines 46-122. *)
Definition makeRequest (endpoint : string) (options : Options.t) : M json :=
  accessToken0 <- resolveAccessToken options ;;
  self <- get_this ;;
  let refreshToken0 := or_else (Options.refreshToken options) (refreshToken self) in
  match as_truthy accessToken0 with
  | None => throw (new_Error "No access token available")
  | Some accessToken1 =>
      try_catch
        (response <- requestWithRetry endpoint accessToken1 refreshToken0 options ;;
         lift (finishRequest options response))
        (fun error =>
           emit (LogError "Microsoft Graph API request failed:" error) ;;
           throw error)
  end.
End Methods.

(** ** Envelope formatting *)

(** [removeODataProps], lines 209-219 and 243-253.  The source deletes the
    keys in place; on a tree (a parsed body shares no object) that is the
    tree without them.  [Object.keys] of an array are its indices, so an
    array is visited element by element. *)
Fixpoint removeODataProps (obj : json) : json :=
  match obj with
  | JObj fields =>
      JObj ((fix forEach (keys : list (string * json)) : list (string * json) :=
               match keys with
               | [] => []
               | (key, v) :: rest =>
                   if startsWith "@odata." key then forEach rest
                   else (key, if typeof_object v then removeODataProps v else v)
                          :: forEach rest
               end) fields)
  | JArr items =>
      JArr (map (fun v => if typeof_object v then removeODataProps v else v) items)
  | _ => obj
  end.

Definition text_item (t : option string) : ContentItem :=
  {| type := "text"; text := t |}.

(** [data && typeof data === 'object' && '_headers' in data]. *)
Definition carries_headers (data : option json) : option (list (string * json)) :=
  match data with
  | Some (JObj fields) => if has_key "_headers" fields then Some fields else None
  | _ => None
  end.

(** The [meta] object of lines 186-192. *)
Definition meta_of (responseData : list (string * json)) : list (string * json) :=
  let meta := [] in
  let meta :=
    match lookup "_etag" responseData with
    | Some e => if truthy_json e then assign "etag" e meta else meta
    | None => meta
    end in
  match lookup "_headers" responseData with
  | Some h => if truthy_json h then assign "headers" h meta else meta
  | None => meta
  end.

(** [data === null || data === undefined]. *)
Definition nullish (data : option json) : bool :=
  match data with
  | None | Some JNull => true
  | _ => false
  end.

Definition success_text : string := JSON_stringify (JObj [("success", JBool true)]).

(** [formatJsonResponse], lines 177-260; [data] is [None] for [undefined]. *)
Definition formatJsonResponse (data : option json) (rawResponse0 : bool) : McpResponse :=
  match carries_headers data with
  | Some responseData =>
      let meta := meta_of responseData in
      let inner := lookup "data" responseData in
      if rawResponse0 then
        {| content := [text_item (JSON_stringify_opt inner)];
           _meta := Some meta; isError := None |}
      else if nullish inner then
        {| content := [text_item (Some success_text)];
           _meta := Some meta; isError := None |}
      else
        {| content := [text_item (option_map (fun d => JSON_stringify_2 (removeODataProps d))
                                             inner)];
           _meta := Some meta; isError := None |}
  | None =>
      if rawResponse0 then
        {| content := [text_item (JSON_stringify_opt data)];
           _meta := None; isError := None |}
      else if nullish data then
        {| content := [text_item (Some success_text)];
           _meta := None; isError := None |}
      else
        {| content := [text_item (option_map (fun d => JSON_stringify_2 (removeODataProps d))
                                             data)];
           _meta := None; isError := None |}
  end.

(** The envelope of the [catch] of lines 168-174. *)
Definition error_envelope (error : Error) : McpResponse :=
  {| content := [text_item (Some (JSON_stringify (JObj [("error", JStr (message error))])))];
     _meta := None;
     isError := Some true |}.

Section Entry.
Variable rt : Runtime.

(** [graphRequest], lines 160-175. *)
Definition graphRequest (endpoint : string) (options : Options.t) : M McpResponse :=
  try_catch
    (emit (LogInfo endpoint options) ;;
     result <- makeRequest rt endpoint options ;;
     ret (formatJsonResponse (Some result) (flag (Options.rawResponse options))))
    (fun error =>
       emit (LogError "Error in Graph API request: " error) ;;
       ret (error_envelope error)).
End Entry.

(** ** A JSON.parse for the worked examples

    The theorems below hold for every [JSON_parse].  The examples need one
    that computes: [parse_json] reads the fragment of JSON with [null],
    booleans, integers, strings with the one-letter escapes, arrays and
    objects, and rejects everything else.  Keys are kept in the order of
    the text, a repeated key keeps its first place and its last value;
    keys that look like array indices, which JavaScript enumerates first,
    are not used in the examples. *)

Definition is_ws (c : ascii) : bool :=
  let n := nat_of_ascii c in
  ((n =? 32) || (n =? 9) || (n =? 10) || (n =? 13))%nat.

Definition is_digit (c : ascii) : bool :=
  let n := nat_of_ascii c in ((48 <=? n) && (n <=? 57))%nat.

Definition digit_value (c : ascii) : Z := Z.of_nat (nat_of_ascii c - 48).

Fixpoint skip_ws (s : string) : string :=
  match s with
  | String c r => if is_ws c then skip_ws r else s
  | EmptyString => s
  end.

Definition unescape (c : ascii) : option ascii :=
  if Ascii.eqb c dquote then Some dquote
  else if Ascii.eqb c backslash then Some backslash
  else if Ascii.eqb c "/" then Some "/"%char
  else if Ascii.eqb c "b" then Some (ascii_of_nat 8)
  else if Ascii.eqb c "f" then Some (ascii_of_nat 12)
  else if Ascii.eqb c "n" then Some (ascii_of_nat 10)
  else if Ascii.eqb c "r" then Some (ascii_of_nat 13)
  else if Ascii.eqb c "t" then Some (ascii_of_nat 9)
  else None.

(** The characters of a string literal, after its opening quote. *)
Fixpoint parse_chars (s acc : string) : option (string * string) :=
  match s with
  | EmptyString => None
  | String c r =>
      if Ascii.eqb c dquote then Some (acc, r)
      else if Ascii.eqb c backslash then
        match r with
        | String e r' =>
            match unescape e with
            | Some ch => parse_chars r' (acc ++ str1 ch)
            | None => None
            end
        | EmptyString => None
        end
      else if (nat_of_ascii c <? 32)%nat then None
      else parse_chars r (acc ++ str1 c)
  end.

Fixpoint parse_digits (s : string) (acc : Z) : Z * string :=
  match s with
  | String c r => if is_digit c then parse_digits r (10 * acc + digit_value c)%Z else (acc, s)
  | EmptyString => (acc, s)
  end.

(** An integer: no leading zero, no fraction, no exponent. *)
Definition parse_int (s : string) : option (Z * string) :=
  let (neg, s1) :=
    match s with
    | String c r => if Ascii.eqb c "-" then (true, r) else (false, s)
    | EmptyString => (false, s)
    end in
  match s1 with
  | String d r =>
      if is_digit d then
        let leading_zero :=
          Ascii.eqb d "0" && match r with String d' _ => is_digit d' | EmptyString => false end in
        let (n, rest) := parse_digits s1 0 in
        let more :=
          match rest with
          | String c _ => Ascii.eqb c "." || Ascii.eqb c "e" || Ascii.eqb c "E"
          | EmptyString => false
          end in
        if leading_zero || more then None
        else Some (if neg then (- n)%Z else n, rest)
      else None
  | EmptyString => None
  end.

Definition expect (word : string) (v : json) (s : string) : option (json * string) :=
  if String.prefix word s
  then Some (v, substring (String.length word) (String.length s - String.length word) s)
  else None.

Fixpoint parse_value (fuel : nat) (s : string) : option (json * string) :=
  match fuel with
  | O => None
  | S fuel' =>
      match skip_ws s with
      | EmptyString => None
      | String c r =>
          if Ascii.eqb c "n" then expect "ull" JNull r
          else if Ascii.eqb c "t" then expect "rue" (JBool true) r
          else if Ascii.eqb c "f" then expect "alse" (JBool false) r
          else if Ascii.eqb c dquote then
            match parse_chars r "" with
            | Some (str, r') => Some (JStr str, r')
            | None => None
            end
          else if Ascii.eqb c "[" then
            match skip_ws r with
            | String c' r' =>
                if Ascii.eqb c' "]" then Some (JArr [], r') else parse_items fuel' r []
            | EmptyString => None
            end
          else if Ascii.eqb c "{" then
            match skip_ws r with
            | String c' r' =>
                if Ascii.eqb c' "}" then Some (JObj [], r') else parse_members fuel' r []
            | EmptyString => None
            end
          else
            match parse_int (String c r) with
            | Some (n, r') => Some (JNum n, r')
            | None => None
            end
      end
  end
with parse_items (fuel : nat) (s : string) (acc : list json) : option (json * string) :=
  match fuel with
  | O => None
  | S fuel' =>
      match parse_value fuel' s with
      | Some (v, r) =>
          match skip_ws r with
          | String c r' =>
              if Ascii.eqb c "," then parse_items fuel' r' (acc ++ [v])%list
              else if Ascii.eqb c "]" then Some (JArr (acc ++ [v])%list, r')
              else None
          | EmptyString => None
          end
      | None => None
      end
  end
with parse_members (fuel : nat) (s : string) (acc : list (string * json))
  : option (json * string) :=
  match fuel with
  | O => None
  | S fuel' =>
      match skip_ws s with
      | String q r =>
          if Ascii.eqb q dquote then
            match parse_chars r "" with
            | Some (key, r1) =>
                match skip_ws r1 with
                | String c r2 =>
                    if Ascii.eqb c ":" then
                      match parse_value fuel' r2 with
                      | Some (v, r3) =>
                          match skip_ws r3 with
                          | String c' r4 =>
                              if Ascii.eqb c' "," then parse_members fuel' r4 (assign key v acc)
                              else if Ascii.eqb c' "}" then Some (JObj (assign key v acc), r4)
                              else None
                          | EmptyString => None
                          end
                      | None => None
                      end
                    else None
                | EmptyString => None
                end
            | None => None
            end
          else None
      | EmptyString => None
      end
  end.

Definition parse_json (s : string) : option json :=
  match parse_value (2 * String.length s + 2) s with
  | Some (v, r) => match skip_ws r with EmptyString => Some v | _ => None end
  | None => None
  end.

(** [{"k":"v"}]-style text for the examples, written without escapes. *)
Definition q (s : string) : string := quote s.


(** ** Observations on a run *)

Definition is_fetch (e : Event) : bool :=
  match e with Fetch _ => true | _ => false end.
Definition is_attempt (e : Event) : bool :=
  match e with RefreshAttempt _ => true | _ => false end.
Definition is_refresh (e : Event) : bool :=
  match e with Refresh _ _ _ _ => true | _ => false end.
Definition is_getToken (e : Event) : bool :=
  match e with GetToken => true | _ => false end.

Definition count (p : Event -> bool) (evs : list Event) : nat :=
  List.length (filter p evs).

(** The events a method adds to the trace when run from [st]. *)
Definition events_of {A} (m : M A) (st : State) : list Event :=
  skipn (List.length (trace st)) (trace (snd (m st))).

(** What a method returns or throws, and the adapter it leaves. *)
Definition result_of {A} (m : M A) (st : State) : Error + A := fst (m st).
Definition client_after {A} (m : M A) (st : State) : GraphClient := this (snd (m st)).

(** [st] after [makeRequest]'s [catch] has logged [e]. *)
Definition logged (e : Error) (st : State) : State :=
  {| this := this st;
     trace := (trace st ++ [LogError "Microsoft Graph API request failed:" e])%list |}.

(** The call from [st] resolves a token and its request phase (lines
    48-71) ends with the response [r] in the state [st2]: [r] is the
    response that is not retried further. *)
Definition keeps (rt : Runtime) (endpoint : string) (options : Options.t)
    (st : State) (r : Response.t) (st2 : State) : Prop :=
  exists a tok st1,
    resolveAccessToken rt options st = (inr a, st1)
    /\ as_truthy a = Some tok
    /\ requestWithRetry rt endpoint tok
         (or_else (Options.refreshToken options) (refreshToken (this st1)))
         options st1 = (inr r, st2).

(** A fresh adapter that has made no call. *)
Definition initial : State := {| this := constructor; trace := [] |}.

(** The request of the first transport call among [evs]. *)
Fixpoint first_fetch (evs : list Event) : option Request.t :=
  match evs with
  | [] => None
  | Fetch req :: _ => Some req
  | _ :: rest => first_fetch rest
  end.

(** ** The adapter's operations and the stored pair *)

(** The state in which [graphRequest] calls [makeRequest]: after its
    [logger.info]. *)
Definition after_info (endpoint : string) (options : Options.t) (st : State) : State :=
  {| this := this st; trace := (trace st ++ [LogInfo endpoint options])%list |}.

(** The public methods of the class. *)
Inductive Operation : Type :=
| OpSetOAuthTokens (a : string) (r : option string)
| OpMakeRequest (endpoint : string) (options : Options.t)
| OpGraphRequest (endpoint : string) (options : Options.t)
| OpFormatJsonResponse (data : option json) (rawResponse0 : bool).

(** The state an operation leaves. *)
Definition perform (rt : Runtime) (op : Operation) (st : State) : State :=
  match op with
  | OpSetOAuthTokens a r => snd (setOAuthTokens a r st)
  | OpMakeRequest endpoint options => snd (makeRequest rt endpoint options st)
  | OpGraphRequest endpoint options => snd (graphRequest rt endpoint options st)
  | OpFormatJsonResponse _ _ => st
  end.

(** Between [st] and [st'] the refresher was called, it answered with a
    response, and the stored pair of [st'] is the one that response
    gives: its access token, and its refresh token if it has one. *)
Definition successful_refresh (rt : Runtime) (st st' : State) : Prop :=
  exists before after rk cid sec tid response,
    trace st' = (trace st ++ before ++ Refresh rk cid sec tid :: after)%list
    /\ lib_refreshAccessToken rt (trace st ++ before)%list rk cid sec tid = inr response
    /\ accessToken (this st') = access_token response
    /\ refreshToken (this st')
       = (if truthy (refresh_token response) then refresh_token response
          else refreshToken (this st)).

(** ** OData metadata *)

(** No key of [v], at any depth, begins with "@odata.". *)
Fixpoint odata_free (v : json) : bool :=
  match v with
  | JObj fields =>
      forallb (fun kv => negb (startsWith "@odata." (fst kv)) && odata_free (snd kv)) fields
  | JArr items => forallb odata_free items
  | _ => true
  end.

(** The stripping as the specification words it: every object, at any
    depth, loses the keys that begin with "@odata."; its other keys stay,
    with their values stripped in turn; an array is stripped element by
    element; any other value is left alone. *)
Fixpoint stripOData (v : json) : json :=
  match v with
  | JObj fields =>
      JObj (filter (fun kv => negb (startsWith "@odata." (fst kv)))
                   (map (fun kv => (fst kv, stripOData (snd kv))) fields))
  | JArr items => JArr (map stripOData items)
  | _ => v
  end.

(** The fields of an object. *)
Definition fields_of (v : json) : list (string * json) :=
  match v with JObj fields => fields | _ => [] end.

(** ** Runtimes and inputs for the worked examples *)

(** No environment variable is set. *)
Definition env_unset : string -> option string := fun _ => None.

(** Only the client secret is set. *)
Definition env_secret : string -> option string :=
  fun name => if String.eqb name "MS365_MCP_CLIENT_SECRET" then Some "s3cret" else None.

(** A server that answers every request with [r]; the credential source
    holds [tok]; the refresher answers [refreshed]. *)
Definition runtime_const (tok : option string) (r : Response.t)
    (environment : string -> option string) (refreshed : Error + TokenResponse) : Runtime :=
  {| getToken := fun _ => inr tok;
     fetch := fun _ _ => inr r;
     lib_refreshAccessToken := fun _ _ _ _ _ => refreshed;
     env := environment;
     JSON_parse := parse_json |}.

(** A server that answers 401 to the bearer token [expired] and [r] to
    every other request. *)
Definition unauthorized : Response.t :=
  Response.make 401 "Unauthorized" [] "token expired".

Definition runtime_expiring (expired : string) (r : Response.t)
    (environment : string -> option string) (refreshed : Error + TokenResponse) : Runtime :=
  {| getToken := fun _ => inr None;
     fetch := fun _ req =>
       match lookup "Authorization" (Request.headers req) with
       | Some b => if String.eqb b ("Bearer " ++ expired) then inr unauthorized else inr r
       | None => inr r
       end;
     lib_refreshAccessToken := fun _ _ _ _ _ => refreshed;
     env := environment;
     JSON_parse := parse_json |}.

Definition no_refresher : Error + TokenResponse := inl (new_Error "refresher unavailable").

Definition forbidden_scope : Response.t :=
  Response.make 403 "Forbidden" [] "Insufficient privileges: scope".

Definition ok_json (headers : list (string * string)) (body : string) : Response.t :=
  Response.make 200 "OK" headers body.

(** The credential source holds the token T and the server answers 403
    with a scope complaint. *)
Definition rt_forbidden : Runtime :=
  runtime_const (Some "T") forbidden_scope env_unset no_refresher.

(** The credential source holds the token T and the server answers 200
    with the body [body]. *)
Definition rt_ok (body : string) : Runtime :=
  runtime_const (Some "T") (ok_json [] body) env_unset no_refresher.

(** A server that answers 200 with the headers [headers] and the body
    [body]. *)
Definition rt_headers (headers : list (string * string)) (body : string) : Runtime :=
  runtime_const (Some "T") (ok_json headers body) env_unset no_refresher.

(** The server rejects the token A; no client secret is configured. *)
Definition rt_unconfigured : Runtime :=
  runtime_expiring "A" (ok_json [] "{}") env_unset no_refresher.

(** The server rejects the token A; the refresher answers with the token
    B and no refresh token. *)
Definition rt_refreshing : Runtime :=
  runtime_expiring "A" (ok_json [] "{}") env_secret
    (inr {| access_token := Some "B"; refresh_token := None |}).

(** The server rejects the token A; the secret is configured and the
    refresher fails. *)
Definition rt_refresher_down : Runtime :=
  runtime_expiring "A" (ok_json [] "{}") env_secret no_refresher.

(** [{ includeHeaders: true }]. *)
Definition opts_includeHeaders : Options.t :=
  Options.make None None None None (Some true) None None.


(** [{ accessToken: "A", refreshToken: "R" }]. *)
Definition opts_tokens : Options.t :=
  Options.make None None None None None (Some "A") (Some "R").

(** [{ rawResponse: true }]. *)
Definition opts_raw : Options.t :=
  Options.make None None None (Some true) None None None.

(** The body [{"_headers":{}}]. *)
Definition body_headers_only : string := "{" ++ quote "_headers" ++ ":{}}".

(** A value that carries [_headers], a [data] field and one more key. *)
Definition wrapped : json :=
  JObj [("_headers", JObj []); ("data", JObj [("a", JNum 1)]); ("x", JNum 2)].

Definition st_forbidden : State :=
  {| this := constructor;
     trace := [GetToken; Fetch (buildRequest "/me" "T" Options.empty)] |}.

Definition st_ok : State :=
  {| this := constructor;
     trace := [GetToken; Fetch (buildRequest "/me" "T" Options.empty)] |}.

Definition st_includeHeaders : State :=
  {| this := constructor;
     trace := [GetToken; Fetch (buildRequest "/me" "T" opts_includeHeaders)] |}.

(** ** The claims that fail as they are stated *)

(** C2 as stated: whenever a refresh is attempted, exactly one refresh
    call and exactly two transport calls occur. *)
Definition C2_as_stated (rt : Runtime) (endpoint : string) (options : Options.t)
    (st : State) : Prop :=
  let evs := events_of (makeRequest rt endpoint options) st in
  count is_attempt evs = 1 ->
  count is_refresh evs = 1 /\ count is_fetch evs = 2.

(** C3 as stated: whatever value is formatted without [rawResponse], the
    text is the 2-space serialisation of the value stripped. *)
Definition C3_as_stated (data : json) : Prop :=
  content (formatJsonResponse (Some data) false)
  = [text_item (Some (JSON_stringify_2 (stripOData data)))].


(** C7 as stated: on a plain object the [_etag] is the value of the ETag
    header whenever the header is there, and the literal only when it is
    absent. *)
Definition etag_as_stated (r : Response.t) : string :=
  match Response.get "ETag" r with
  | Some v => v
  | None => "no-etag-found"
  end.

Definition C7_as_stated (rt : Runtime) (endpoint : string) (options : Options.t)
    (st : State) : Prop :=
  forall r st2,
    keeps rt endpoint options st r st2 ->
    (200 <= Response.status r <= 299)%N ->
    flag (Options.includeHeaders options) = true ->
    result_of (makeRequest rt endpoint options) st
    = inr (match normalizeBody rt (Response.text r) with
           | JObj fields => JObj (assign "_etag" (JStr (etag_as_stated r)) fields)
           | other => other
           end).

(** C9 as stated: an operation that changes the stored pair has made a
    successful refresh. *)
Definition C9_as_stated (rt : Runtime) (op : Operation) (st : State) : Prop :=
  this (perform rt op st) <> this st -> successful_refresh rt st (perform rt op st).

(** ** Further observations *)

(** The requests of the transport calls among [evs], in order. *)
Fixpoint fetches (evs : list Event) : list Request.t :=
  match evs with
  | [] => []
  | Fetch req :: rest => req :: fetches rest
  | _ :: rest => fetches rest
  end.

Definition is_log_error (e : Event) : bool :=
  match e with LogError _ _ => true | _ => false end.

(** The key is not OData metadata. *)
Definition is_data_key (key : string) : bool := negb (startsWith "@odata." key).

(** The two default headers of [performRequest] (lines 148-149). *)
Definition default_header (accessToken0 key : string) : option string :=
  if String.eqb key "Authorization" then Some ("Bearer " ++ accessToken0)
  else if String.eqb key "Content-Type" then Some "application/json"
  else None.

(** An adapter that already holds a pair. *)
Definition st_stored : State :=
  {| this := {| accessToken := Some "S"; refreshToken := Some "stored" |};
     trace := [] |}.

(** [{ headers: { Authorization: "Basic abc" } }]. *)
Definition opts_basic_auth : Options.t :=
  Options.make (Some [("Authorization", "Basic abc")]) None None None None None None.

(** [options] with the two formatting flags replaced. *)
Definition with_flags (options : Options.t) (raw include : option bool) : Options.t :=
  Options.make (Options.headers options) (Options.method options) (Options.body options)
               raw include
               (Options.accessToken options) (Options.refreshToken options).

(** The order of the events of one call to [makeRequest], read off its
    control flow: the credential source first, if it is consulted; then
    the transport; then, if at all, the refresh attempt, the refresher
    and the retry, in that order; the error log last. *)
Definition after_retry (evs : list Event) : bool :=
  match evs with
  | [] | [LogError _ _] => true
  | _ => false
  end.

Definition after_refresher (evs : list Event) : bool :=
  match evs with
  | [LogError _ _] => true
  | Fetch _ :: rest => after_retry rest
  | _ => false
  end.

Definition after_attempt (evs : list Event) : bool :=
  match evs with
  | [LogError _ _] => true
  | Refresh _ _ _ _ :: rest => after_refresher rest
  | _ => false
  end.

Definition after_first_fetch (evs : list Event) : bool :=
  match evs with
  | [] | [LogError _ _] => true
  | RefreshAttempt _ :: rest => after_attempt rest
  | _ => false
  end.

Definition after_token (evs : list Event) : bool :=
  match evs with
  | [] => true
  | Fetch _ :: rest => after_first_fetch rest
  | _ => false
  end.

Definition call_shape (evs : list Event) : bool :=
  match evs with
  | GetToken :: rest => after_token rest
  | _ => after_token evs
  end.

(** A page of results with OData metadata at two depths, and a string
    value that merely looks like a metadata key. *)
Definition odata_page : json :=
  JObj [("@odata.context", JStr "c");
        ("value", JArr [JObj [("id", JNum 1); ("@odata.etag", JNull)]; JStr "@odata.x"])].

(** * Properties

    ** The serialiser and the parser on examples *)

Example stringify_ok :
  JSON_stringify (JObj [("message", JStr "OK!")])
  = "{" ++ quote "message" ++ ":" ++ quote "OK!" ++ "}".
Proof. reflexivity. Qed.

Example parse_json_object :
  parse_json ("{" ++ q "@odata.context" ++ ":" ++ q "c" ++ ", " ++ q "value"
                  ++ ": [ {" ++ q "id" ++ ":1," ++ q "@odata.etag" ++ ":null} , true ] }")
  = Some (JObj [("@odata.context", JStr "c");
                ("value", JArr [JObj [("id", JNum 1); ("@odata.etag", JNull)]; JBool true])]).
Proof. reflexivity. Qed.

Example parse_json_rejects :
  parse_json "[1,]" = None /\ parse_json "{" = None /\ parse_json "nul" = None
  /\ parse_json "" = None /\ parse_json "1 2" = None.
Proof. repeat split; reflexivity. Qed.

Example stringify_2_nested :
  JSON_stringify_2 (JObj [("a", JArr [JNum 1; JObj []]); ("b", JNull)])
  = "{" ++ str1 newline
    ++ "  " ++ q "a" ++ ": [" ++ str1 newline
    ++ "    1," ++ str1 newline
    ++ "    {}" ++ str1 newline
    ++ "  ]," ++ str1 newline
    ++ "  " ++ q "b" ++ ": null" ++ str1 newline
    ++ "}".
Proof. reflexivity. Qed.

(** ** Strings *)

Lemma prefix_app (p s : string) : String.prefix p (p ++ s) = true.
Proof.
  induction p as [|c p IH]; simpl.
  - now destruct s.
  - rewrite IH. now destruct (ascii_dec c c).
Qed.

Lemma prefix_refl (s : string) : String.prefix s s = true.
Proof.
  induction s as [|c s IH]; simpl; [reflexivity|].
  rewrite IH. now destruct (ascii_dec c c).
Qed.

Lemma includes_prefix (p s : string) : String.prefix p s = true -> includes p s = true.
Proof. intros H. destruct s; cbn [includes]; now rewrite H. Qed.

Lemma includes_app_r (needle a b : string) :
  includes needle b = true -> includes needle (a ++ b) = true.
Proof.
  intros H. induction a as [|c a IH]; [exact H|].
  change (String c a ++ b) with (String c (a ++ b)). cbn [includes].
  rewrite IH. now destruct (String.prefix needle (String c (a ++ b))).
Qed.

(** A text includes each of its pieces. *)
Lemma includes_mid (a s b : string) : includes s (a ++ s ++ b) = true.
Proof. apply includes_app_r, includes_prefix, prefix_app. Qed.

Lemma nonempty_eqb (s : string) : negb (nonempty s) = String.eqb s "".
Proof. now destruct s. Qed.

(** ** The monad *)

Lemma events_of_intro {A} (m : M A) (st : State) (evs : list Event) :
  trace (snd (m st)) = (trace st ++ evs)%list -> events_of m st = evs.
Proof.
  unfold events_of. intros ->.
  rewrite skipn_app, skipn_all, Nat.sub_diag. reflexivity.
Qed.

(** ** makeRequest in terms of its phases *)

Lemma makeRequest_keeps rt endpoint options st r st2 :
  keeps rt endpoint options st r st2 ->
  makeRequest rt endpoint options st =
    match finishRequest rt options r with
    | inr v => (inr v, st2)
    | inl e => (inl e, logged e st2)
    end.
Proof.
  intros (a & tok & st1 & Hres & Htok & Hreq).
  unfold makeRequest, bind. rewrite Hres. unfold get_this. rewrite Htok.
  unfold try_catch. rewrite Hreq. unfold lift.
  destruct (finishRequest rt options r); reflexivity.
Qed.

Lemma classifyResponse_ok (r : Response.t) :
  (200 <= Response.status r <= 299)%N -> classifyResponse r = inr tt.
Proof.
  intros [Hlo Hhi]. unfold classifyResponse, Response.ok.
  assert (E : (Response.status r =? 403)%N = false) by (apply N.eqb_neq; lia).
  rewrite E.
  apply N.leb_le in Hlo, Hhi. now rewrite Hlo, Hhi.
Qed.

Lemma makeRequest_ok rt endpoint options st r st2 :
  keeps rt endpoint options st r st2 ->
  (200 <= Response.status r <= 299)%N ->
  makeRequest rt endpoint options st
  = (inr (attachEtag options r (normalizeBody rt (Response.text r))), st2).
Proof.
  intros Hk Hok. rewrite (makeRequest_keeps _ _ _ _ _ _ Hk).
  unfold finishRequest. now rewrite (classifyResponse_ok r Hok).
Qed.

(** ** Objects *)

Lemma lookup_assign_same {V} (key : string) (v : V) (o : list (string * V)) :
  lookup key (assign key v o) = Some v.
Proof.
  induction o as [|[k v'] o IH]; simpl.
  - now rewrite String.eqb_refl.
  - destruct (String.eqb k key) eqn:E; simpl; now rewrite E.
Qed.

Lemma lookup_assign_other {V} (key k : string) (v : V) (o : list (string * V)) :
  k <> key -> lookup k (assign key v o) = lookup k o.
Proof.
  intros Hne. induction o as [|[k' v'] o IH]; simpl.
  - destruct (String.eqb key k) eqn:E; [|reflexivity].
    apply String.eqb_eq in E. congruence.
  - destruct (String.eqb k' key) eqn:E; simpl.
    + apply String.eqb_eq in E. subst k'.
      destruct (String.eqb key k) eqn:E'; [|reflexivity].
      apply String.eqb_eq in E'. congruence.
    + now rewrite IH.
Qed.

(** ** Running the methods *)

Lemma skipn_own {A} (l evs : list A) : skipn (List.length l) (l ++ evs) = evs.
Proof. rewrite skipn_app, skipn_all, Nat.sub_diag. reflexivity. Qed.

Lemma app_cons_assoc {A} (l : list A) (x : A) (evs : list A) :
  ((l ++ [x]) ++ evs = l ++ x :: evs)%list.
Proof. now rewrite <- app_assoc. Qed.

(** Unfold the methods down to the collaborators' answers. *)
Ltac unfold_methods :=
  unfold events_of, result_of, client_after,
    makeRequest, resolveAccessToken, requestWithRetry, performRequest,
    refreshAccessToken, bind, ret, throw, try_catch, get_this, put_this, emit,
    call, lift in *.

(** Split on the next test the code makes. *)
Ltac next_case :=
  match goal with
  | |- context [match ?x with _ => _ end] =>
      lazymatch x with
      | context [match _ with _ => _ end] => fail
      | _ => destruct x eqn:?
      end
  end.

(** Read the events off a trace that extends the initial one. *)
Ltac read_trace :=
  cbn [fst snd this trace] in *;
  rewrite ?app_cons_assoc;
  rewrite ?skipn_own, ?skipn_all.

Lemma as_truthy_Some (a : option string) (s : string) :
  as_truthy a = Some s -> a = Some s /\ s <> "" /\ truthy a = true.
Proof.
  destruct a as [t|]; simpl; [|discriminate].
  destruct t; simpl; [discriminate|]. intros [= <-]. repeat split. discriminate.
Qed.

Lemma as_truthy_None (a : option string) :
  as_truthy a = None -> truthy a = false.
Proof. destruct a as [t|]; simpl; [|reflexivity]. now destruct t. Qed.

(** Every path through a method, with the events it leaves. *)
Ltac run_cases :=
  unfold_methods;
  repeat (next_case; cbn [fst snd this trace]);
  read_trace; rewrite ?app_cons_assoc in *.

Ltac use_truthy :=
  repeat match goal with
    | H : as_truthy _ = Some _ |- _ =>
        apply as_truthy_Some in H; destruct H as (? & ? & ?)
    | H : as_truthy _ = None |- _ => apply as_truthy_None in H
    end.

Lemma or_else_truthy (x : option string) (tok : string) :
  tok <> "" -> as_truthy (or_else x (Some tok)) <> None.
Proof.
  intros Hne. unfold or_else. destruct x as [t|]; simpl.
  - destruct t; simpl; [|discriminate]. destruct tok; [contradiction|discriminate].
  - destruct tok; [contradiction|discriminate].
Qed.

(** [graphRequest] is [makeRequest] after the [logger.info], wrapped. *)
Lemma graphRequest_unfold rt endpoint options st :
  graphRequest rt endpoint options st =
    match makeRequest rt endpoint options (after_info endpoint options st) with
    | (inr v, st') =>
        (inr (formatJsonResponse (Some v) (flag (Options.rawResponse options))), st')
    | (inl e, st') =>
        (inr (error_envelope e),
         {| this := this st';
            trace := (trace st' ++ [LogError "Error in Graph API request: " e])%list |})
    end.
Proof.
  unfold graphRequest, try_catch, bind, emit, ret, after_info.
  destruct (makeRequest rt endpoint options _) as [[e|v] st']; reflexivity.
Qed.

(** ** The envelope of graphRequest *)

(** [formatJsonResponse] and the [catch] both build one item of type
    "text". *)
Lemma formatJsonResponse_one_item (data : option json) (raw : bool) :
  exists t, content (formatJsonResponse data raw) = [text_item t].
Proof.
  unfold formatJsonResponse.
  destruct (carries_headers data); destruct raw;
    try destruct (nullish _); eexists; reflexivity.
Qed.

(** In the embedding, where what is thrown is an [Error], [graphRequest]
    returns an envelope: what [makeRequest] throws becomes the error
    envelope of its message.  (A collaborator that rejects with [null]
    is outside the embedding: line 171 reads [error.message].) *)
Lemma graphRequest_returns rt endpoint options st :
  exists envelope t,
    result_of (graphRequest rt endpoint options) st = inr envelope
    /\ content envelope = [text_item t]
    /\ (forall e,
          result_of (makeRequest rt endpoint options) (after_info endpoint options st)
          = inl e ->
          envelope = error_envelope e).
Proof.
  unfold result_of. rewrite graphRequest_unfold.
  destruct (makeRequest rt endpoint options _) as [[e|v] st']; cbn [fst].
  - exists (error_envelope e). eexists. repeat split. now intros e' [= <-].
  - destruct (formatJsonResponse_one_item (Some v) (flag (Options.rawResponse options)))
      as [t Ht].
    eexists. exists t. repeat split; [exact Ht | discriminate].
Qed.

(** The text of a formatted value is missing exactly when the value
    carries [_headers], has no [data], and [rawResponse] is set. *)
Lemma formatJsonResponse_text (v : json) (raw : bool) :
  content (formatJsonResponse (Some v) raw) = [text_item None]
  <-> raw = true
      /\ exists fields,
           v = JObj fields /\ has_key "_headers" fields = true
           /\ lookup "data" fields = None.
Proof.
  unfold formatJsonResponse, carries_headers.
  destruct v as [| | | |items|fields]; destruct raw; cbn;
    try (split; [discriminate | intros [E H]; try discriminate E;
                                destruct H as (f & E' & _); discriminate E']).
  - destruct (has_key "_headers" fields) eqn:Hk; cbn.
    + destruct (lookup "data" fields) as [d|] eqn:Hd; cbn.
      * split; [discriminate|]. intros (_ & f & [= <-] & _ & Hn). congruence.
      * split; [|reflexivity]. intros _. split; [reflexivity|]. now exists fields.
    + split; [discriminate|]. intros (_ & f & [= <-] & Hk' & _). congruence.
  - destruct (has_key "_headers" fields) eqn:Hk; cbn.
    + destruct (nullish (lookup "data" fields)) eqn:Hn.
      * split; [discriminate | intros [E _]; discriminate E].
      * destruct (lookup "data" fields); [|discriminate Hn].
        split; [discriminate | intros [E _]; discriminate E].
    + split; [discriminate | intros [E _]; discriminate E].
Qed.

(** C1 (the code departs from it). A 200 response whose body is
    [{"_headers":{}}], requested with [rawResponse], is formatted by the
    branch of lines 194-199: [responseData.data] is [undefined],
    [JSON.stringify(undefined)] is [undefined], and the one content item
    has no text: it is not a JSON-serialised string. *)
Theorem C1_text_undefined :
  parse_json body_headers_only = Some (JObj [("_headers", JObj [])])
  /\ result_of (graphRequest (rt_ok body_headers_only) "/me" opts_raw) initial
     = inr {| content := [ {| type := "text"; text := None |} ];
              _meta := Some [("headers", JObj [])];
              isError := None |}.
Proof. split; reflexivity. Qed.

(** The sibling branch of lines 201-206 covers the same value when
    [rawResponse] is not set. *)
Example text_defined_without_raw :
  result_of (graphRequest (rt_ok body_headers_only) "/me" Options.empty) initial
  = inr {| content := [text_item (Some success_text)];
           _meta := Some [("headers", JObj [])];
           isError := None |}.
Proof. reflexivity. Qed.

Example no_token_envelope :
  result_of (graphRequest (runtime_const None forbidden_scope env_unset no_refresher)
               "/me" Options.empty) initial
  = inr {| content :=
             [text_item (Some ("{" ++ q "error" ++ ":" ++ q "No access token available"
                               ++ "}"))];
           _meta := None;
           isError := Some true |}.
Proof. reflexivity. Qed.

(** ** The request and its one retry *)

Lemma at_most_one_retry rt endpoint options st :
  count is_fetch (events_of (makeRequest rt endpoint options) st) <= 2
  /\ count is_attempt (events_of (makeRequest rt endpoint options) st) <= 1
  /\ count is_refresh (events_of (makeRequest rt endpoint options) st) <= 1.
Proof. run_cases; cbn; lia. Qed.

Lemma unauthorized_is_api_error rt options (r : Response.t) :
  Response.status r = 401%N ->
  finishRequest rt options r
  = inl (new_Error ("Microsoft Graph API error: 401 " ++ Response.statusText r
                      ++ " - " ++ Response.text r)).
Proof.
  intros H. unfold finishRequest, classifyResponse, Response.ok, api_error_message.
  rewrite H. reflexivity.
Qed.

Lemma graphRequest_error rt endpoint options st e :
  result_of (makeRequest rt endpoint options) (after_info endpoint options st) = inl e ->
  result_of (graphRequest rt endpoint options) st = inr (error_envelope e).
Proof.
  unfold result_of. rewrite graphRequest_unfold.
  destruct (makeRequest rt endpoint options _) as [[e'|v] st']; cbn; congruence.
Qed.

(** C2 fails as stated: with no client secret configured the refresh is
    attempted and fails, and the call ends after its one transport call;
    the same happens when the refresher itself fails. *)
Lemma C2_counterexample :
  ~ C2_as_stated rt_unconfigured "/me" opts_tokens initial
  /\ ~ C2_as_stated rt_refresher_down "/me" opts_tokens initial.
Proof.
  unfold C2_as_stated. split; intros H.
  - assert (Hone : count is_attempt
                     (events_of (makeRequest rt_unconfigured "/me" opts_tokens) initial) = 1)
      by reflexivity.
    destruct (H Hone) as [_ Hfetch]. vm_compute in Hfetch. discriminate Hfetch.
  - assert (Hone : count is_attempt
                     (events_of (makeRequest rt_refresher_down "/me" opts_tokens) initial) = 1)
      by reflexivity.
    destruct (H Hone) as [_ Hfetch]. vm_compute in Hfetch. discriminate Hfetch.
Qed.

(** C2 (amended). Take a call whose token resolves to [tok].  Its first
    transport call carries [tok].
    - If that call fails, the failure is the call's result: nothing is
      retried and no refresh is attempted.
    - If the first response is 401 and a refresh token that is not empty
      is at hand (the per-call override, else the stored one), a refresh
      is attempted, once.  When the refresh succeeds, the refresher has
      been called exactly once and the transport exactly twice, and the
      result is that of the second transport call: its failure, or its
      response classified and normalised.  When the refresh fails, its
      error is the call's result and the transport has been called once.
    - On every other first response (another status, or a 401 without a
      refresh token) no refresh is attempted, the transport has been
      called once, and the result is that response classified and
      normalised.
    No call makes more than two transport calls, one refresh attempt and
    one refresher call.  A response with status 401 that is kept (the
    second one, or the first without a refresh token) is classified as
    the generic API error, and [graphRequest] turns any such failure into
    the error envelope of its message. *)
Theorem C2_refresh_and_retry rt endpoint options st a st1 tok :
  resolveAccessToken rt options st = (inr a, st1) ->
  as_truthy a = Some tok ->
  let refreshToken0 :=
    or_else (Options.refreshToken options) (refreshToken (this st1)) in
  let req1 := buildRequest endpoint tok options in
  let st2 := {| this := this st1; trace := (trace st1 ++ [Fetch req1])%list |} in
  let evs := events_of (makeRequest rt endpoint options) st in
  let res := result_of (makeRequest rt endpoint options) st in
  match fetch rt (trace st1) req1 with
  | inl e =>
      res = inl e
      /\ count is_fetch evs = 1 /\ count is_attempt evs = 0 /\ count is_refresh evs = 0
  | inr r1 =>
      match (Response.status r1 =? 401)%N, as_truthy refreshToken0 with
      | true, Some r =>
          count is_attempt evs = 1
          /\ match refreshAccessToken rt r st2 with
             | (inl e, _) =>
                 res = inl e /\ count is_fetch evs = 1 /\ count is_refresh evs <= 1
             | (inr _, st3) =>
                 count is_refresh evs = 1 /\ count is_fetch evs = 2
                 /\ exists tok2,
                     as_truthy (or_else (accessToken (this st3)) (Some tok)) = Some tok2
                     /\ res = match fetch rt (trace st3)
                                      (buildRequest endpoint tok2 options) with
                              | inl e => inl e
                              | inr r2 => finishRequest rt options r2
                              end
             end
      | _, _ =>
          count is_attempt evs = 0 /\ count is_refresh evs = 0
          /\ count is_fetch evs = 1 /\ res = finishRequest rt options r1
      end
  end
  /\ (count is_fetch evs <= 2 /\ count is_attempt evs <= 1 /\ count is_refresh evs <= 1)
  /\ (forall r, Response.status r = 401%N ->
        finishRequest rt options r
        = inl (new_Error ("Microsoft Graph API error: 401 " ++ Response.statusText r
                            ++ " - " ++ Response.text r)))
  /\ (forall st0 e,
        result_of (makeRequest rt endpoint options) (after_info endpoint options st0)
        = inl e ->
        result_of (graphRequest rt endpoint options) st0 = inr (error_envelope e)).
Proof.
  intros Hres Htok refreshToken0 req1 st2 evs res.
  split; [| split; [apply at_most_one_retry | split;
                      [apply unauthorized_is_api_error
                      | intros st0 e; apply graphRequest_error]]].
  subst refreshToken0 req1 st2 evs res.
  destruct (as_truthy_Some _ _ Htok) as (_ & Hne & _).
  unfold resolveAccessToken, bind, get_this, ret, call in Hres.
  destruct (truthy (Options.accessToken options)) eqn:E1;
    [|destruct (truthy (accessToken (this st))) eqn:E2];
    injection Hres as Ha <-; try subst a.
  all: unfold_methods; rewrite ?E1, ?E2, ?Ha; cbn [fst snd this trace]; rewrite Htok.
  all: repeat (next_case; cbn [fst snd this trace]).
  all: read_trace; rewrite ?app_cons_assoc in *.
  all: cbn [count filter is_fetch is_attempt is_refresh List.length andb].
  all: try match goal with
         | H : as_truthy (or_else _ (Some _)) = None |- _ =>
             exfalso; eapply or_else_truthy; [|exact H]; assumption
         end.
  all: repeat split; try lia.
  all: try (eexists; split; [reflexivity|]).
  all: cbn [accessToken] in *.
  all: repeat match goal with
         | H : fetch _ _ _ = _ |- context [fetch _ _ _] => rewrite H; clear H
         end.
  all: try congruence.
Qed.

(** A 401, a refresh that succeeds and a 200: one refresher call, two
    transport calls, and the second response as the result. *)
Lemma C2_witness :
  resolveAccessToken rt_refreshing opts_tokens initial = (inr (Some "A"), initial)
  /\ as_truthy (Some "A") = Some "A"
  /\ count is_refresh (events_of (makeRequest rt_refreshing "/me" opts_tokens) initial) = 1
  /\ count is_fetch (events_of (makeRequest rt_refreshing "/me" opts_tokens) initial) = 2
  /\ result_of (makeRequest rt_refreshing "/me" opts_tokens) initial = inr (JObj []).
Proof.
  split; [reflexivity | split; [reflexivity |]].
  pose proof (proj1 (C2_refresh_and_retry rt_refreshing "/me" opts_tokens initial
                       (Some "A") initial "A" eq_refl eq_refl)) as H.
  cbv zeta in H.
  change (fetch rt_refreshing (trace initial) (buildRequest "/me" "A" opts_tokens))
    with (inr (A := Error) unauthorized) in H.
  cbv beta iota in H.
  change ((Response.status unauthorized =? 401)%N) with true in H.
  change (as_truthy (or_else (Options.refreshToken opts_tokens)
                       (refreshToken (this initial)))) with (Some "R") in H.
  cbv beta iota in H.
  destruct H as (_ & H).
  change (refreshAccessToken rt_refreshing "R"
            {| this := this initial;
               trace := (trace initial ++ [Fetch (buildRequest "/me" "A" opts_tokens)])%list |})
    with (inr (A := Error) tt,
          {| this := {| accessToken := Some "B"; refreshToken := None |};
             trace := [Fetch (buildRequest "/me" "A" opts_tokens);
                       RefreshAttempt "R";
                       Refresh "R" "084a3e9f-a9f4-43f7-89f9-d229cf97853e" "s3cret" "common"] |})
    in H.
  cbv beta iota in H.
  destruct H as (Hrefresh & Hfetch & tok2 & Htok2 & Hres).
  split; [exact Hrefresh | split; [exact Hfetch |]].
  injection Htok2 as <-. exact Hres.
Defined.

Example second_401_is_api_error :
  result_of (graphRequest
               (runtime_const None unauthorized env_secret
                  (inr {| access_token := Some "B"; refresh_token := None |}))
               "/me" opts_tokens) initial
  = inr (error_envelope
           (new_Error "Microsoft Graph API error: 401 Unauthorized - token expired"))
  /\ count is_fetch
       (events_of (graphRequest
                     (runtime_const None unauthorized env_secret
                        (inr {| access_token := Some "B"; refresh_token := None |}))
                     "/me" opts_tokens) initial) = 2.
Proof. split; reflexivity. Qed.

Example no_refresh_token_no_refresh :
  result_of (graphRequest (runtime_const (Some "T") unauthorized env_secret no_refresher)
               "/me" Options.empty) initial
  = inr (error_envelope
           (new_Error "Microsoft Graph API error: 401 Unauthorized - token expired"))
  /\ count is_attempt
       (events_of (graphRequest (runtime_const (Some "T") unauthorized env_secret no_refresher)
                     "/me" Options.empty) initial) = 0.
Proof. split; reflexivity. Qed.

(** ** Stripping the OData metadata *)

Lemma removeODataProps_scalar (v : json) :
  typeof_object v = false -> removeODataProps v = v.
Proof. destruct v; simpl; congruence. Qed.

Lemma removeODataProps_guard (v : json) :
  (if typeof_object v then removeODataProps v else v) = removeODataProps v.
Proof.
  destruct (typeof_object v) eqn:E; [reflexivity|].
  symmetry. now apply removeODataProps_scalar.
Qed.

(** The in-place deletion computes the specification's stripping. *)
Lemma removeODataProps_strip (v : json) : removeODataProps v = stripOData v.
Proof.
  induction v as [| | | |items IH|fields IH] using json_ind; try reflexivity.
  - cbn [removeODataProps stripOData]. f_equal.
    induction IH as [|x items Hx _ IHitems]; [reflexivity|].
    cbn [map]. now rewrite removeODataProps_guard, Hx, IHitems.
  - cbn [removeODataProps stripOData]. f_equal.
    induction IH as [|[key x] fields Hx _ IHfields]; [reflexivity|].
    cbn [map filter fst snd] in *.
    destruct (startsWith "@odata." key); cbn [negb].
    + exact IHfields.
    + now rewrite removeODataProps_guard, Hx, IHfields.
Qed.

Lemma stripOData_free (v : json) : odata_free (stripOData v) = true.
Proof.
  induction v as [| | | |items IH|fields IH] using json_ind; try reflexivity.
  - cbn [stripOData odata_free].
    induction IH as [|x items Hx _ IHitems]; [reflexivity|].
    cbn [map forallb]. now rewrite Hx, IHitems.
  - cbn [stripOData odata_free].
    induction IH as [|[key x] fields Hx _ IHfields]; [reflexivity|].
    cbn [map filter fst snd] in *.
    destruct (startsWith "@odata." key) eqn:E; cbn [negb]; [exact IHfields|].
    cbn [forallb fst snd]. now rewrite E, Hx, IHfields.
Qed.

Lemma stripOData_fixed (v : json) : odata_free v = true -> stripOData v = v.
Proof.
  induction v as [| | | |items IH|fields IH] using json_ind; try reflexivity.
  - cbn [stripOData odata_free]. intros H. f_equal.
    induction IH as [|x items Hx _ IHitems]; [reflexivity|].
    cbn [map forallb] in *. apply andb_true_iff in H. destruct H as [H1 H2].
    now rewrite Hx, IHitems.
  - cbn [stripOData odata_free]. intros H. f_equal.
    induction IH as [|[key x] fields Hx _ IHfields]; [reflexivity|].
    cbn [map filter forallb fst snd] in *.
    apply andb_true_iff in H. destruct H as [H1 H2].
    apply andb_true_iff in H1. destruct H1 as [Hk Hv].
    rewrite Hk. now rewrite Hx, IHfields.
Qed.

Lemma stripOData_sibling (fields : list (string * json)) (key : string) :
  startsWith "@odata." key = false ->
  lookup key (fields_of (stripOData (JObj fields)))
  = option_map stripOData (lookup key fields).
Proof.
  intros Hkey. cbn [stripOData fields_of].
  induction fields as [|[k x] fields IH]; [reflexivity|].
  cbn [map filter lookup fst snd].
  destruct (String.eqb k key) eqn:E.
  - apply String.eqb_eq in E. subst k. rewrite Hkey. cbn [negb lookup].
    now rewrite String.eqb_refl.
  - destruct (startsWith "@odata." k); cbn [negb lookup]; [exact IH|].
    now rewrite E.
Qed.

(** C3 fails as stated: [null] is formatted as [{"success":true}], which
    is not the serialisation of [null]; and of a value that carries
    [_headers] only the [data] field is serialised, its sibling keys are
    not in the text. *)
Lemma C3_counterexample : ~ C3_as_stated JNull /\ ~ C3_as_stated wrapped.
Proof. unfold C3_as_stated. split; vm_compute; discriminate. Qed.

(** C3 (amended). A value formatted without [rawResponse] gives one text:
    - for [null] and for [undefined], the serialisation of
      [{success:true}];
    - for an object that carries [_headers], the same rule applied to its
      [data] field alone (absent or [null]: [{success:true}]; otherwise
      the field stripped and serialised with 2-space indentation);
    - for every other value, the value stripped and serialised with
      2-space indentation.
    The stripping done by the code is the one the specification words: no
    key beginning with "@odata." is left at any depth, every other key
    keeps its value (stripped in turn), values that are not objects are
    untouched, arrays are stripped element by element, and a value
    without such keys is unchanged. *)
Theorem C3_odata_stripping (data : option json) (v : json) :
  content (formatJsonResponse data false)
  = [text_item
       (Some
          match data with
          | None | Some JNull => JSON_stringify (JObj [("success", JBool true)])
          | Some (JObj fields) =>
              if has_key "_headers" fields then
                match lookup "data" fields with
                | None | Some JNull => JSON_stringify (JObj [("success", JBool true)])
                | Some inner => JSON_stringify_2 (stripOData inner)
                end
              else JSON_stringify_2 (stripOData (JObj fields))
          | Some other => JSON_stringify_2 (stripOData other)
          end)]
  /\ removeODataProps v = stripOData v
  /\ odata_free (stripOData v) = true
  /\ (odata_free v = true -> stripOData v = v)
  /\ (typeof_object v = false -> stripOData v = v)
  /\ (forall key,
        startsWith "@odata." key = false ->
        lookup key (fields_of (stripOData v))
        = option_map stripOData (lookup key (fields_of v)))
  /\ (forall items, v = JArr items -> stripOData v = JArr (map stripOData items)).
Proof.
  split; [|split; [apply removeODataProps_strip | split; [apply stripOData_free |
           split; [apply stripOData_fixed | split; [|split]]]]].
  - unfold formatJsonResponse, carries_headers.
    destruct data as [[| | | |items|fields]|]; try reflexivity.
    + cbn [nullish option_map]. now rewrite removeODataProps_strip.
    + destruct (has_key "_headers" fields).
      * destruct (lookup "data" fields) as [[| | | | |]|];
          cbn [nullish option_map]; rewrite ?removeODataProps_strip; reflexivity.
      * cbn [nullish option_map]. now rewrite removeODataProps_strip.
  - destruct v; simpl; congruence.
  - intros key Hkey. destruct v; try reflexivity. now apply stripOData_sibling.
  - intros items ->. reflexivity.
Qed.

(** [undefined] gives [{"success":true}]; a body with OData keys at two
    depths is printed without them; a body without OData keys is printed
    as it is; a string that begins with "@odata." is a value, not a key,
    and is untouched. *)
Lemma C3_witness :
  content (formatJsonResponse None false)
  = [text_item (Some (JSON_stringify (JObj [("success", JBool true)])))]
  /\ content (formatJsonResponse (Some odata_page) false)
     = [text_item
          (Some (JSON_stringify_2
                   (JObj [("value", JArr [JObj [("id", JNum 1)]; JStr "@odata.x"])])))]
  /\ odata_free (stripOData odata_page) = true
  /\ stripOData (JObj [("id", JNum 1); ("tags", JArr [JStr "a"])])
     = JObj [("id", JNum 1); ("tags", JArr [JStr "a"])]
  /\ stripOData (JStr "@odata.x") = JStr "@odata.x".
Proof.
  split; [|split; [|split; [|split]]].
  - exact (proj1 (C3_odata_stripping None JNull)).
  - exact (proj1 (C3_odata_stripping (Some odata_page) JNull)).
  - exact (proj1 (proj2 (proj2 (C3_odata_stripping None odata_page)))).
  - exact (proj1 (proj2 (proj2 (proj2
             (C3_odata_stripping None (JObj [("id", JNum 1); ("tags", JArr [JStr "a"])])))))
             eq_refl).
  - exact (proj1 (proj2 (proj2 (proj2 (proj2
             (C3_odata_stripping None (JStr "@odata.x")))))) eq_refl).
Defined.

Example strip_and_print :
  content (formatJsonResponse
             (parse_json ("{" ++ q "@odata.context" ++ ":" ++ q "c" ++ "," ++ q "value"
                              ++ ":[{" ++ q "id" ++ ":1," ++ q "@odata.etag" ++ ":null}]}"))
             false)
  = [text_item (Some ("{" ++ str1 newline
                      ++ "  " ++ q "value" ++ ": [" ++ str1 newline
                      ++ "    {" ++ str1 newline
                      ++ "      " ++ q "id" ++ ": 1" ++ str1 newline
                      ++ "    }" ++ str1 newline
                      ++ "  ]" ++ str1 newline
                      ++ "}"))].
Proof. reflexivity. Qed.

Example only_odata_keys :
  content (formatJsonResponse (Some (JObj [("@odata.context", JStr "c")])) false)
  = [text_item (Some "{}")].
Proof. reflexivity. Qed.

(** ** Token resolution *)








Example override_wins :
  first_fetch
    (events_of (makeRequest (rt_ok "{}") "/me"
                  (Options.make None None None None None (Some "O") None))
               {| this := {| accessToken := Some "S"; refreshToken := None |};
                  trace := [] |})
  = Some (Request.make "https://graph.microsoft.com/v1.0/me" "GET"
            [("Authorization", "Bearer O"); ("Content-Type", "application/json")] None).
Proof. reflexivity. Qed.

(** ** Error classification *)

Lemma classifyResponse_not_ok (r : Response.t) :
  ~ (200 <= Response.status r <= 299)%N ->
  classifyResponse r =
    inl (new_Error
           (if (Response.status r =? 403)%N
               && (includes "scope" (Response.text r)
                   || includes "permission" (Response.text r))
            then scope_error_message r (Response.text r)
            else api_error_message r (Response.text r))).
Proof.
  intros Hnot. unfold classifyResponse.
  destruct (Response.status r =? 403)%N eqn:E403; simpl.
  - now destruct (includes "scope" (Response.text r) || includes "permission" (Response.text r)).
  - assert (Hok : Response.ok r = false).
    { unfold Response.ok. apply andb_false_iff.
      destruct (200 <=? Response.status r)%N eqn:E1; [right|now left].
      apply N.leb_gt. apply N.leb_le in E1. lia. }
    now rewrite Hok.
Qed.

(** C5. A response that is kept (not retried further) and whose status is
    not 2xx makes the call fail.  When the status is 403 and the body text
    contains "scope" or "permission", the error is the scope error: its
    message carries the status, the status text and the body text and ends
    with the organization-mode guidance.  Every other non-2xx status fails
    with the generic API error, carrying the same three. *)
Theorem C5_error_classification rt endpoint options st r st2 :
  keeps rt endpoint options st r st2 ->
  ~ (200 <= Response.status r <= 299)%N ->
  let body := Response.text r in
  let code := string_of_N (Response.status r) in
  let scoped :=
    (Response.status r =? 403)%N && (includes "scope" body || includes "permission" body) in
  let msg :=
    if scoped then
      "Microsoft Graph API scope error: " ++ code ++ " " ++ Response.statusText r
        ++ " - " ++ body
        ++ ". This tool requires organization mode. Please restart with --org-mode flag."
    else
      "Microsoft Graph API error: " ++ code ++ " " ++ Response.statusText r
        ++ " - " ++ body in
  makeRequest rt endpoint options st = (inl (new_Error msg), logged (new_Error msg) st2)
  /\ includes code msg = true
  /\ includes (Response.statusText r) msg = true
  /\ includes body msg = true
  /\ (scoped = true -> includes "organization mode" msg = true).
Proof.
  intros Hkeeps Hnot body code scoped msg.
  split.
  - rewrite (makeRequest_keeps _ _ _ _ _ _ Hkeeps).
    unfold finishRequest. rewrite (classifyResponse_not_ok r Hnot).
    fold body. fold scoped. unfold msg, scope_error_message, api_error_message.
    fold code. now destruct scoped.
  - unfold msg. destruct scoped.
    + repeat split.
      * apply includes_mid.
      * apply includes_app_r, includes_app_r, includes_mid.
      * do 4 apply includes_app_r. apply includes_mid.
      * intros _. do 6 apply includes_app_r. reflexivity.
    + repeat split.
      * apply includes_mid.
      * apply includes_app_r, includes_app_r, includes_mid.
      * do 5 apply includes_app_r. apply includes_prefix, prefix_refl.
      * discriminate.
Qed.

(** The property at work: a 403 whose body is "Insufficient privileges:
    scope" is kept by a call without options and fails with the scope
    error. *)
Lemma C5_witness :
  keeps rt_forbidden "/me" Options.empty initial forbidden_scope st_forbidden
  /\ ~ (200 <= Response.status forbidden_scope <= 299)%N
  /\ result_of (makeRequest rt_forbidden "/me" Options.empty) initial
     = inl (new_Error
              ("Microsoft Graph API scope error: 403 Forbidden - "
               ++ "Insufficient privileges: scope"
               ++ ". This tool requires organization mode. "
               ++ "Please restart with --org-mode flag.")).
Proof.
  assert (Hk : keeps rt_forbidden "/me" Options.empty initial forbidden_scope st_forbidden).
  { exists (Some "T"), "T", {| this := constructor; trace := [GetToken] |}.
    split; [reflexivity | split; reflexivity]. }
  assert (Hn : ~ (200 <= Response.status forbidden_scope <= 299)%N).
  { simpl. lia. }
  split; [exact Hk | split; [exact Hn |]].
  unfold result_of.
  rewrite (proj1 (C5_error_classification rt_forbidden "/me" Options.empty initial
                    forbidden_scope st_forbidden Hk Hn)).
  reflexivity.
Defined.

(** ** Body normalisation *)

(** C6. The body text of a kept 2xx response is normalised three ways:
    the empty text gives [{message:"OK!"}]; a text that parses as JSON
    gives the parsed value; any other text gives [{message:"OK!",
    rawResponse: text}].  That value is what the call returns (with the
    ETag put on it when [includeHeaders] is set, not otherwise). *)
Theorem C6_body_normalization rt endpoint options st r st2 :
  keeps rt endpoint options st r st2 ->
  (200 <= Response.status r <= 299)%N ->
  let text := Response.text r in
  let normalized :=
    if String.eqb text "" then JObj [("message", JStr "OK!")]
    else match JSON_parse rt text with
         | Some parsed => parsed
         | None => JObj [("message", JStr "OK!"); ("rawResponse", JStr text)]
         end in
  makeRequest rt endpoint options st = (inr (attachEtag options r normalized), st2)
  /\ (flag (Options.includeHeaders options) = false ->
      makeRequest rt endpoint options st = (inr normalized, st2)).
Proof.
  intros Hk Hok text normalized.
  assert (Hn : normalizeBody rt text = normalized).
  { unfold normalizeBody, normalized. now rewrite nonempty_eqb. }
  assert (Hm := makeRequest_ok _ _ _ _ _ _ Hk Hok). fold text in Hm. rewrite Hn in Hm.
  split; [exact Hm|].
  intros Hflag. rewrite Hm. unfold attachEtag. now rewrite Hflag.
Qed.

(** The three ways on a server that answers 200: a JSON body, an empty
    body, a body that is not JSON. *)
Lemma C6_witness :
  keeps (rt_ok "[1, true]") "/me" Options.empty initial (ok_json [] "[1, true]") st_ok
  /\ (200 <= Response.status (ok_json [] "[1, true]") <= 299)%N
  /\ makeRequest (rt_ok "[1, true]") "/me" Options.empty initial
     = (inr (JArr [JNum 1; JBool true]), st_ok).
Proof.
  assert (Hk : keeps (rt_ok "[1, true]") "/me" Options.empty initial
                 (ok_json [] "[1, true]") st_ok).
  { exists (Some "T"), "T", {| this := constructor; trace := [GetToken] |}.
    split; [reflexivity | split; reflexivity]. }
  assert (Hok : (200 <= Response.status (ok_json [] "[1, true]") <= 299)%N).
  { simpl. lia. }
  split; [exact Hk | split; [exact Hok |]].
  exact (proj1 (C6_body_normalization _ _ _ _ _ _ Hk Hok)).
Defined.

Example normalize_empty_body :
  result_of (makeRequest (rt_ok "") "/me" Options.empty) initial
  = inr (JObj [("message", JStr "OK!")]).
Proof. reflexivity. Qed.

Example normalize_not_json :
  result_of (makeRequest (rt_ok "<html>") "/me" Options.empty) initial
  = inr (JObj [("message", JStr "OK!"); ("rawResponse", JStr "<html>")]).
Proof. reflexivity. Qed.

(** ** The ETag of the response *)

(** [Headers.get] ignores the case of the name. *)
Lemma get_etag_case (r : Response.t) : Response.get "etag" r = Response.get "ETag" r.
Proof. reflexivity. Qed.

Lemma or_default_self (a : option string) (d : string) :
  or_default (or_else a a) d = or_default a d.
Proof. unfold or_else. now destruct (truthy a). Qed.

(** C7 fails as stated: a response whose ETag header is present with an
    empty value gets the literal, not the header's value. *)
Lemma C7_counterexample :
  ~ C7_as_stated (rt_headers [("ETag", "")] "{}") "/me" opts_includeHeaders initial.
Proof.
  intros H.
  specialize (H (ok_json [("ETag", "")] "{}") st_includeHeaders).
  assert (Hk : keeps (rt_headers [("ETag", "")] "{}") "/me" opts_includeHeaders initial
                 (ok_json [("ETag", "")] "{}") st_includeHeaders).
  { exists (Some "T"), "T", {| this := constructor; trace := [GetToken] |}.
    split; [reflexivity | split; reflexivity]. }
  assert (Hok : (200 <= Response.status (ok_json [("ETag", "")] "{}") <= 299)%N).
  { simpl. lia. }
  specialize (H Hk Hok eq_refl). vm_compute in H. discriminate H.
Qed.

(** C7 (amended). With [includeHeaders] set, a kept 2xx response whose
    normalised body is a plain object returns that object with [_etag]
    set to the value of the ETag header (looked up without case), or to
    "no-etag-found" when the header is absent or its value is empty; every
    other key keeps its value.  An array, a scalar or [null] is returned
    as it is, without [_etag]. *)
Theorem C7_etag_attachment rt endpoint options st r st2 :
  keeps rt endpoint options st r st2 ->
  (200 <= Response.status r <= 299)%N ->
  flag (Options.includeHeaders options) = true ->
  let etag :=
    match Response.get "ETag" r with
    | Some v => if String.eqb v "" then "no-etag-found" else v
    | None => "no-etag-found"
    end in
  match normalizeBody rt (Response.text r) with
  | JObj fields =>
      exists fields',
        makeRequest rt endpoint options st = (inr (JObj fields'), st2)
        /\ lookup "_etag" fields' = Some (JStr etag)
        /\ (forall key, key <> "_etag" -> lookup key fields' = lookup key fields)
  | other => makeRequest rt endpoint options st = (inr other, st2)
  end.
Proof.
  intros Hk Hok Hflag etag.
  rewrite (makeRequest_ok _ _ _ _ _ _ Hk Hok).
  unfold attachEtag. rewrite Hflag, get_etag_case, or_default_self.
  assert (He : or_default (Response.get "ETag" r) "no-etag-found" = etag).
  { unfold or_default, etag. destruct (Response.get "ETag" r) as [v|]; [|reflexivity].
    rewrite <- nonempty_eqb. now destruct (nonempty v). }
  rewrite He.
  destruct (normalizeBody rt (Response.text r)) as [| | | | |fields]; try reflexivity.
  exists (assign "_etag" (JStr etag) fields). unfold with_etag.
  split; [reflexivity | split].
  - apply lookup_assign_same.
  - intros key Hne. now apply lookup_assign_other.
Qed.

(** The header's value lands on the object, whatever the case of its
    name. *)
Lemma C7_witness :
  keeps (rt_headers [("etag", "W/1")] "{}") "/me" opts_includeHeaders initial
        (ok_json [("etag", "W/1")] "{}") st_includeHeaders
  /\ (200 <= Response.status (ok_json [("etag", "W/1")] "{}") <= 299)%N
  /\ flag (Options.includeHeaders opts_includeHeaders) = true
  /\ exists fields',
       makeRequest (rt_headers [("etag", "W/1")] "{}") "/me" opts_includeHeaders initial
       = (inr (JObj fields'), st_includeHeaders)
       /\ lookup "_etag" fields' = Some (JStr "W/1")
       /\ (forall key, key <> "_etag" -> lookup key fields' = lookup key []).
Proof.
  assert (Hk : keeps (rt_headers [("etag", "W/1")] "{}") "/me" opts_includeHeaders initial
                 (ok_json [("etag", "W/1")] "{}") st_includeHeaders).
  { exists (Some "T"), "T", {| this := constructor; trace := [GetToken] |}.
    split; [reflexivity | split; reflexivity]. }
  assert (Hok : (200 <= Response.status (ok_json [("etag", "W/1")] "{}") <= 299)%N).
  { simpl. lia. }
  split; [exact Hk | split; [exact Hok | split; [reflexivity |]]].
  exact (C7_etag_attachment _ _ _ _ _ _ Hk Hok eq_refl).
Defined.

Example etag_absent :
  result_of (makeRequest (rt_headers [] "{}") "/me" opts_includeHeaders) initial
  = inr (JObj [("_etag", JStr "no-etag-found")]).
Proof. reflexivity. Qed.

Example etag_not_on_arrays :
  result_of (makeRequest (rt_headers [("ETag", "W/1")] "[{}]") "/me" opts_includeHeaders)
            initial
  = inr (JArr [JObj []]).
Proof. reflexivity. Qed.

(** ** Refreshing the token *)










Example refresher_defaults :
  events_of (refreshAccessToken
               (runtime_const None unauthorized env_secret no_refresher) "R") initial
  = [RefreshAttempt "R";
     Refresh "R" "084a3e9f-a9f4-43f7-89f9-d229cf97853e" "s3cret" "common"].
Proof. reflexivity. Qed.

Example unconfigured_call_fails :
  result_of (makeRequest (runtime_expiring "A" (ok_json [] "{}") env_unset no_refresher)
               "/me" (Options.make None None None None None (Some "A") (Some "R")))
            initial
  = inl (new_Error "MS365_MCP_CLIENT_SECRET not configured")
  /\ count is_fetch
       (events_of (makeRequest (runtime_expiring "A" (ok_json [] "{}") env_unset no_refresher)
                     "/me" (Options.make None None None None None (Some "A") (Some "R")))
                  initial) = 1.
Proof. split; reflexivity. Qed.



Example refresh_replaces_both :
  client_after (refreshAccessToken
                  (runtime_const None unauthorized env_secret
                     (inr {| access_token := Some "A2"; refresh_token := Some "new" |}))
                  "old")
               {| this := {| accessToken := Some "A1"; refreshToken := Some "old" |};
                  trace := [] |}
  = {| accessToken := Some "A2"; refreshToken := Some "new" |}.
Proof. reflexivity. Qed.

(** ** The stored pair *)

Lemma successful_refresh_extend rt st pre st' post :
  successful_refresh rt {| this := this st; trace := (trace st ++ pre)%list |} st' ->
  successful_refresh rt st {| this := this st'; trace := (trace st' ++ post)%list |}.
Proof.
  intros (before & after & rk & cid & sec & tid & response & Htr & Hlib & Ha & Hr).
  cbn [this trace] in *.
  exists (pre ++ before)%list, (after ++ post)%list, rk, cid, sec, tid, response.
  cbn [this trace]. rewrite Htr.
  repeat split; try assumption.
  - now rewrite <- !app_assoc.
  - now rewrite app_assoc.
Qed.

Lemma makeRequest_frame rt endpoint options st :
  this (snd (makeRequest rt endpoint options st)) = this st
  \/ successful_refresh rt st (snd (makeRequest rt endpoint options st)).
Proof.
  unfold successful_refresh. run_cases.
  all: try (left; reflexivity).
  all: right.
  all: first
         [ solve [ eexists [_; _]; do 6 eexists; cbn [this trace];
                   split; [reflexivity | split; [eassumption |]];
                   match goal with H : truthy _ = _ |- _ => rewrite H end;
                   split; reflexivity ]
         | solve [ eexists [_; _; _]; do 6 eexists; cbn [this trace];
                   split; [reflexivity | split; [eassumption |]];
                   match goal with H : truthy _ = _ |- _ => rewrite H end;
                   split; reflexivity ] ].
Qed.

Lemma graphRequest_frame rt endpoint options st :
  this (snd (graphRequest rt endpoint options st)) = this st
  \/ successful_refresh rt st (snd (graphRequest rt endpoint options st)).
Proof.
  rewrite graphRequest_unfold.
  destruct (makeRequest_frame rt endpoint options (after_info endpoint options st))
    as [Hsame | Hrefresh].
  - left. destruct (makeRequest rt endpoint options _) as [[e|v] st']; exact Hsame.
  - right. destruct (makeRequest rt endpoint options _) as [[e|v] st']; cbn [snd] in *.
    + apply (successful_refresh_extend rt st [LogInfo endpoint options] st').
      exact Hrefresh.
    + apply (successful_refresh_extend rt st [LogInfo endpoint options] st' []) in Hrefresh.
      rewrite app_nil_r in Hrefresh. destruct st'. exact Hrefresh.
Qed.

(** C9 fails as stated: [setOAuthTokens] changes the stored pair and
    refreshes nothing. *)
Lemma C9_counterexample :
  ~ C9_as_stated rt_refreshing (OpSetOAuthTokens "A" None) initial.
Proof.
  unfold C9_as_stated. intros H.
  assert (Hchanged : this (perform rt_refreshing (OpSetOAuthTokens "A" None) initial)
                     <> this initial) by discriminate.
  destruct (H Hchanged) as (before & after & rk & cid & sec & tid & response & Htr & _).
  cbn in Htr. destruct before; discriminate Htr.
Qed.

(** C9 (amended). The stored pair (accessToken, refreshToken) is changed
    by [setOAuthTokens], which stores its arguments, and by a successful
    refresh, which stores what the refresher answered; an operation that
    is neither leaves the pair as it was.  The pair lives in the adapter's
    fields only: a new adapter starts with an empty pair, nothing is
    loaded or stored. *)
Theorem C9_stored_pair_frame rt op st :
  ((exists a r,
       op = OpSetOAuthTokens a r
       /\ this (perform rt op st)
          = {| accessToken := Some a; refreshToken := if truthy r then r else None |})
   \/ this (perform rt op st) = this st
   \/ successful_refresh rt st (perform rt op st))
  /\ this initial = {| accessToken := None; refreshToken := None |}.
Proof.
  split; [|reflexivity].
  destruct op as [a r | endpoint options | endpoint options | data raw]; cbn [perform].
  - left. exists a, r. split; reflexivity.
  - right. apply makeRequest_frame.
  - right. apply graphRequest_frame.
  - right. left. reflexivity.
Qed.

Example refresh_changes_the_pair :
  this (perform rt_refreshing (OpGraphRequest "/me" opts_tokens)
          {| this := {| accessToken := Some "A"; refreshToken := Some "old" |};
             trace := [] |})
  = {| accessToken := Some "B"; refreshToken := Some "old" |}.
Proof. reflexivity. Qed.

Example failed_call_keeps_the_pair :
  this (perform rt_unconfigured (OpGraphRequest "/me" opts_tokens)
          {| this := {| accessToken := Some "A"; refreshToken := Some "old" |};
             trace := [] |})
  = {| accessToken := Some "A"; refreshToken := Some "old" |}.
Proof. reflexivity. Qed.

(** ** Further properties of the envelope *)

(** X2. The text of a formatted value is [undefined] in two cases only,
    both under [rawResponse]: the value itself is [undefined], or it is
    an object that carries [_headers] and has no [data].  In every other
    case the text is a string. *)
Theorem X2_text_undefined_only_for_raw_wrapper (data : option json) (raw : bool) :
  content (formatJsonResponse data raw) = [ {| type := "text"; text := None |} ]
  <-> raw = true
      /\ (data = None
          \/ exists fields,
               data = Some (JObj fields) /\ has_key "_headers" fields = true
               /\ lookup "data" fields = None).
Proof.
  destruct data as [v|].
  - rewrite formatJsonResponse_text. split.
    + intros (Hraw & fields & -> & Hk & Hd). split; [exact Hraw|].
      right. now exists fields.
    + intros (Hraw & [Hnone | (fields & [= ->] & Hk & Hd)]); [discriminate Hnone|].
      split; [exact Hraw|]. now exists fields.
  - destruct raw; cbn.
    + split; [intros _; split; [reflexivity | now left] | reflexivity].
    + split; [discriminate | intros [E _]; discriminate E].
Qed.

(** X3. [rawResponse] bypasses the stripping and the indentation: the
    text is [JSON.stringify] of the value (of its [data] field when the
    value carries [_headers]). *)
Theorem X3_raw_response_bypasses_stripping (v : json) :
  content (formatJsonResponse (Some v) true)
  = [ {| type := "text";
         text := match v with
                 | JObj fields =>
                     if has_key "_headers" fields
                     then option_map JSON_stringify (lookup "data" fields)
                     else Some (JSON_stringify v)
                 | _ => Some (JSON_stringify v)
                 end |} ].
Proof.
  unfold formatJsonResponse, carries_headers.
  destruct v as [| | | | |fields]; try reflexivity.
  now destruct (has_key "_headers" fields).
Qed.

(** X4. An object whose keys all begin with "@odata." is formatted as
    the text [{}]. *)
Theorem X4_only_odata_keys (fields : list (string * json)) :
  forallb (fun kv => startsWith "@odata." (fst kv)) fields = true ->
  content (formatJsonResponse (Some (JObj fields)) false)
  = [ {| type := "text"; text := Some "{}" |} ].
Proof.
  intros Hall.
  assert (Hno : has_key "_headers" fields = false
                /\ removeODataProps (JObj fields) = JObj []).
  { rewrite removeODataProps_strip. unfold has_key. cbn [stripOData].
    induction fields as [|[k x] fields IH]; [split; reflexivity|].
    cbn [forallb fst] in Hall. apply andb_true_iff in Hall. destruct Hall as [Hk Hrest].
    destruct (IH Hrest) as [IHkey IHstrip].
    cbn [lookup map filter fst]. rewrite Hk. cbn [negb]. split; [|exact IHstrip].
    destruct (String.eqb k "_headers") eqn:E; [|exact IHkey].
    apply String.eqb_eq in E. subst k. discriminate Hk. }
  destruct Hno as [Hno Hstrip].
  unfold formatJsonResponse, carries_headers. rewrite Hno.
  cbn [nullish option_map]. rewrite Hstrip. reflexivity.
Qed.

Lemma X4_witness :
  content (formatJsonResponse
             (Some (JObj [("@odata.context", JStr "c"); ("@odata.count", JNum 3)])) false)
  = [ {| type := "text"; text := Some "{}" |} ].
Proof.
  exact (X4_only_odata_keys [("@odata.context", JStr "c"); ("@odata.count", JNum 3)] eq_refl).
Defined.

(** * Further properties of the adapter

    ** The events of a call *)

Lemma makeRequest_trace rt endpoint options st :
  exists evs, trace (snd (makeRequest rt endpoint options st)) = (trace st ++ evs)%list.
Proof.
  unfold_methods.
  repeat (next_case; cbn [fst snd this trace]).
  all: rewrite ?app_cons_assoc.
  all: first [ eexists; reflexivity | exists []; now rewrite app_nil_r ].
Qed.

Lemma makeRequest_trace_events rt endpoint options st :
  trace (snd (makeRequest rt endpoint options st))
  = (trace st ++ events_of (makeRequest rt endpoint options) st)%list.
Proof.
  destruct (makeRequest_trace rt endpoint options st) as [evs H].
  now rewrite (events_of_intro _ _ _ H).
Qed.

(** [graphRequest] logs the call, runs [makeRequest], and logs the error
    it catches. *)
Lemma graphRequest_events rt endpoint options st :
  events_of (graphRequest rt endpoint options) st
  = (LogInfo endpoint options
       :: events_of (makeRequest rt endpoint options) (after_info endpoint options st)
       ++ match result_of (makeRequest rt endpoint options)
                          (after_info endpoint options st) with
          | inl e => [LogError "Error in Graph API request: " e]
          | inr _ => []
          end)%list.
Proof.
  apply events_of_intro. rewrite graphRequest_unfold. unfold result_of.
  pose proof (makeRequest_trace_events rt endpoint options
                (after_info endpoint options st)) as H.
  destruct (makeRequest rt endpoint options (after_info endpoint options st))
    as [[e|v] st'] eqn:E; cbn [fst snd this trace] in *; rewrite H.
  - unfold after_info; cbn [trace]. now rewrite <- !app_assoc.
  - unfold after_info; cbn [trace]. now rewrite app_nil_r, <- !app_assoc.
Qed.

(** ** The requests of a call *)

Lemma or_default_spec (a : option string) (d : string) :
  or_default a d
  = match a with Some s => if String.eqb s "" then d else s | None => d end.
Proof.
  unfold or_default. destruct a as [s|]; [|reflexivity].
  rewrite <- nonempty_eqb. now destruct (nonempty s).
Qed.

Lemma fetch_built rt endpoint options st req :
  In req (fetches (events_of (makeRequest rt endpoint options) st)) ->
  exists tok, tok <> "" /\ req = buildRequest endpoint tok options.
Proof.
  run_cases; cbn [fetches In]; intros Hin; use_truthy.
  all: repeat destruct Hin as [Hin|Hin]; try contradiction; subst req.
  all: eexists; split; cycle 1; [reflexivity | assumption].
Qed.

(** X5. Every transport call of a call to [makeRequest], the retry
    included, is the original request: the fixed base URL followed by the
    endpoint, the method of the options ("GET" when absent or empty), the
    body of the options, and the headers built for a token that is not
    empty.  Between the first call and the retry only the token changes. *)
Theorem X5_every_request_is_the_original rt endpoint options st req :
  In req (fetches (events_of (makeRequest rt endpoint options) st)) ->
  (exists tok, tok <> "" /\ req = buildRequest endpoint tok options)
  /\ Request.url req = "https://graph.microsoft.com/v1.0" ++ endpoint
  /\ Request.method req
     = match Options.method options with
       | Some m => if String.eqb m "" then "GET" else m
       | None => "GET"
       end
  /\ Request.body req = Options.body options.
Proof.
  intros Hin. destruct (fetch_built _ _ _ _ _ Hin) as (tok & Hne & ->).
  split; [now exists tok|]. cbn [buildRequest Request.url Request.method Request.body].
  repeat split. apply or_default_spec.
Qed.

Lemma X5_witness :
  In (buildRequest "/me" "B" opts_tokens)
     (fetches (events_of (makeRequest rt_refreshing "/me" opts_tokens) initial))
  /\ Request.url (buildRequest "/me" "B" opts_tokens)
     = "https://graph.microsoft.com/v1.0/me".
Proof.
  assert (Hin : In (buildRequest "/me" "B" opts_tokens)
                   (fetches (events_of (makeRequest rt_refreshing "/me" opts_tokens)
                                       initial))).
  { vm_compute. right. left. reflexivity. }
  split; [exact Hin|].
  exact (proj1 (proj2 (X5_every_request_is_the_original _ _ _ _ _ Hin))).
Defined.

(** X7. The refresh token handed to the refresher is the per-call
    override when that is present and not empty, and the stored refresh
    token otherwise; it is never empty. *)
Theorem X7_refresh_token_precedence rt endpoint options st rk cid sec tid :
  In (Refresh rk cid sec tid) (events_of (makeRequest rt endpoint options) st) ->
  rk <> ""
  /\ Some rk
     = match Options.refreshToken options with
       | Some o => if String.eqb o "" then refreshToken (this st) else Some o
       | None => refreshToken (this st)
       end.
Proof.
  assert (Hspec : forall o s,
             or_else o s
             = match o with
               | Some t => if String.eqb t "" then s else Some t
               | None => s
               end).
  { intros [t|] s; [|reflexivity]. unfold or_else, truthy.
    rewrite <- nonempty_eqb. now destruct (nonempty t). }
  rewrite <- Hspec.
  run_cases; cbn [In]; intros Hin; use_truthy.
  all: repeat destruct Hin as [Hin|Hin]; try discriminate Hin; try contradiction.
  all: injection Hin as <- <- <- <-; split; congruence.
Qed.

Lemma X7_witness :
  Some "R"
  = match Options.refreshToken opts_tokens with
    | Some o => if String.eqb o "" then refreshToken (this st_stored) else Some o
    | None => refreshToken (this st_stored)
    end.
Proof.
  assert (Hin : In (Refresh "R" "084a3e9f-a9f4-43f7-89f9-d229cf97853e" "s3cret" "common")
                   (events_of (makeRequest rt_refreshing "/me" opts_tokens) st_stored)).
  { vm_compute. right. right. left. reflexivity. }
  exact (proj2 (X7_refresh_token_precedence _ _ _ _ _ _ _ _ Hin)).
Defined.

Lemma retry_token_spec (stored : option string) (tok s : string) :
  tok <> "" ->
  as_truthy (or_else stored (Some tok)) = Some s ->
  s = match stored with
      | Some t => if String.eqb t "" then tok else t
      | None => tok
      end.
Proof.
  intros Hne. unfold or_else. destruct stored as [t|]; cbn.
  - rewrite <- nonempty_eqb. destruct (nonempty t) eqn:E; cbn.
    + rewrite E. now intros [= <-].
    + destruct tok; [contradiction|]. now intros [= <-].
  - destruct tok; [contradiction|]. now intros [= <-].
Qed.

(** X8. When a call makes two transport calls, a refresher call came
    between them and answered with a response, and the retry carries the
    access token of that response; when the response has no access token
    (or an empty one) the retry carries the rejected token again. *)
Theorem X8_retry_token rt endpoint options st req1 req2 :
  fetches (events_of (makeRequest rt endpoint options) st) = [req1; req2] ->
  exists tok before rk cid sec tid response,
    req1 = buildRequest endpoint tok options
    /\ In (Refresh rk cid sec tid) (events_of (makeRequest rt endpoint options) st)
    /\ lib_refreshAccessToken rt (trace st ++ before)%list rk cid sec tid = inr response
    /\ req2 = buildRequest endpoint
                (match access_token response with
                 | Some t => if String.eqb t "" then tok else t
                 | None => tok
                 end) options.
Proof.
  run_cases; cbn [fetches]; intros Hf; try discriminate Hf.
  all: injection Hf as <- <-.
  all: repeat match goal with
         | H : as_truthy (or_else (accessToken _) (Some _)) = Some _ |- _ =>
             cbn [accessToken] in H; apply retry_token_spec in H;
             [subst | solve [use_truthy; assumption]]
         end.
  all: do 7 eexists; split; [reflexivity|]; split; [cbn [In]; eauto 6|];
    split; [eassumption | reflexivity].
Qed.

Lemma X8_witness :
  fetches (events_of (makeRequest rt_refreshing "/me" opts_tokens) initial)
  = [buildRequest "/me" "A" opts_tokens; buildRequest "/me" "B" opts_tokens]
  /\ exists tok before rk cid sec tid response,
       buildRequest "/me" "A" opts_tokens = buildRequest "/me" tok opts_tokens
       /\ In (Refresh rk cid sec tid)
             (events_of (makeRequest rt_refreshing "/me" opts_tokens) initial)
       /\ lib_refreshAccessToken rt_refreshing (trace initial ++ before)%list
            rk cid sec tid = inr response
       /\ buildRequest "/me" "B" opts_tokens
          = buildRequest "/me"
              (match access_token response with
               | Some t => if String.eqb t "" then tok else t
               | None => tok
               end) opts_tokens.
Proof.
  split; [reflexivity|].
  exact (X8_retry_token rt_refreshing "/me" opts_tokens initial _ _ eq_refl).
Defined.

(** ** The headers of a request *)

Lemma lookup_absent {V} (key : string) (o : list (string * V)) :
  ~ In key (map fst o) -> lookup key o = None.
Proof.
  induction o as [|[k v] o IH]; [reflexivity|]. cbn [map fst In lookup]. intros Hn.
  destruct (String.eqb k key) eqn:E.
  - apply String.eqb_eq in E. exfalso. apply Hn. now left.
  - apply IH. intros Hin. apply Hn. now right.
Qed.

(** [{...o, ...more}] read at one key: the value of [more] when it has
    the key, that of [o] otherwise. *)
Lemma lookup_spread {V} (key : string) (more o : list (string * V)) :
  NoDup (map fst more) ->
  lookup key (spread o more)
  = match lookup key more with
    | Some v => Some v
    | None => lookup key o
    end.
Proof.
  unfold spread. revert o.
  induction more as [|[k v] more IH]; intros o Hnd; [reflexivity|].
  cbn [fold_left fst snd map lookup] in *. inversion Hnd as [|? ? Hnot Hnd']; subst.
  rewrite (IH _ Hnd').
  destruct (String.eqb k key) eqn:E.
  - apply String.eqb_eq in E. subst k.
    rewrite (lookup_absent _ _ Hnot). apply lookup_assign_same.
  - destruct (lookup key more); [reflexivity|].
    apply lookup_assign_other. intros ->. now rewrite String.eqb_refl in E.
Qed.

(** X6. The headers of a request: a header supplied by the caller is
    sent with the caller's value, also when it is "Authorization" or
    "Content-Type", where it replaces the bearer token or the JSON
    content type; a header the caller does not supply is the default
    ("Authorization: Bearer <token>", "Content-Type: application/json")
    or is not sent.  Names collide only when they are equal letter for
    letter. *)
Theorem X6_caller_headers_override rt endpoint options st req key :
  In req (fetches (events_of (makeRequest rt endpoint options) st)) ->
  NoDup (map fst (match Options.headers options with Some h => h | None => [] end)) ->
  exists tok,
    tok <> ""
    /\ lookup key (Request.headers req)
       = match lookup key (match Options.headers options with
                           | Some h => h
                           | None => []
                           end) with
         | Some v => Some v
         | None => default_header tok key
         end.
Proof.
  intros Hin Hnd. destruct (fetch_built _ _ _ _ _ Hin) as (tok & Hne & ->).
  exists tok. split; [exact Hne|].
  cbn [buildRequest Request.headers]. rewrite (lookup_spread _ _ _ Hnd).
  destruct (lookup key _); [reflexivity|].
  unfold default_header. cbn [lookup].
  rewrite (String.eqb_sym "Authorization" key), (String.eqb_sym "Content-Type" key).
  reflexivity.
Qed.

Lemma X6_witness :
  lookup "Authorization"
    (Request.headers (buildRequest "/me" "T" opts_basic_auth))
  = Some "Basic abc"
  /\ lookup "content-type"
       (Request.headers (buildRequest "/me" "T" opts_basic_auth))
     = None.
Proof.
  assert (Hin : In (buildRequest "/me" "T" opts_basic_auth)
                   (fetches (events_of (makeRequest (rt_ok "{}") "/me" opts_basic_auth)
                                       initial))).
  { vm_compute. left. reflexivity. }
  assert (Hnd : NoDup (map fst (match Options.headers opts_basic_auth with
                                | Some h => h
                                | None => []
                                end))).
  { cbn. constructor; [intros []|constructor]. }
  split.
  - destruct (X6_caller_headers_override _ _ _ _ _ "Authorization" Hin Hnd)
      as (tok & _ & H). exact H.
  - destruct (X6_caller_headers_override _ _ _ _ _ "content-type" Hin Hnd)
      as (tok & _ & H). exact H.
Defined.

(** ** Why a call fails *)

Lemma classifyResponse_inr (r : Response.t) :
  classifyResponse r = inr tt -> (200 <= Response.status r <= 299)%N.
Proof.
  unfold classifyResponse, Response.ok.
  destruct (Response.status r =? 403)%N.
  - destruct (includes "scope" (Response.text r) || includes "permission" (Response.text r));
      discriminate.
  - destruct ((200 <=? Response.status r)%N && (Response.status r <=? 299)%N) eqn:E;
      [|discriminate].
    intros _. apply andb_true_iff in E. destruct E as [E1 E2].
    apply N.leb_le in E1, E2. now split.
Qed.

(** X9. [makeRequest] returns a value only for a response that it kept
    and whose status is 2xx: the value is the normalised body of that
    response, with the ETag put on it when requested.  It never returns
    a value for another status. *)
Theorem X9_success_only_on_2xx rt endpoint options st v :
  result_of (makeRequest rt endpoint options) st = inr v ->
  exists r st2,
    keeps rt endpoint options st r st2
    /\ (200 <= Response.status r <= 299)%N
    /\ v = attachEtag options r (normalizeBody rt (Response.text r))
    /\ snd (makeRequest rt endpoint options st) = st2.
Proof.
  unfold result_of. intros H. pose proof H as H0.
  unfold makeRequest, bind in H0.
  destruct (resolveAccessToken rt options st) as [[e|a] st1] eqn:Hres; [discriminate|].
  unfold get_this, bind in H0. cbn [fst snd] in H0.
  destruct (as_truthy a) as [tok|] eqn:Htok; [|discriminate].
  unfold try_catch, bind, lift in H0.
  destruct (requestWithRetry rt endpoint tok _ options st1) as [[e|r] st2] eqn:Hreq;
    [discriminate|].
  unfold finishRequest in H0.
  destruct (classifyResponse r) as [e|[]] eqn:Hc; [discriminate|].
  cbn [fst snd] in H0. injection H0 as <-.
  assert (K : keeps rt endpoint options st r st2).
  { exists a, tok, st1. split; [exact Hres | split; assumption]. }
  pose proof (classifyResponse_inr r Hc) as Hok.
  exists r, st2.
  split; [exact K | split; [exact Hok | split; [reflexivity|]]].
  now rewrite (makeRequest_ok _ _ _ _ _ _ K Hok).
Qed.

Lemma X9_witness :
  exists r st2,
    keeps (rt_ok "[1, true]") "/me" Options.empty initial r st2
    /\ (200 <= Response.status r <= 299)%N
    /\ JArr [JNum 1; JBool true]
       = attachEtag Options.empty r (normalizeBody (rt_ok "[1, true]") (Response.text r))
    /\ snd (makeRequest (rt_ok "[1, true]") "/me" Options.empty initial) = st2.
Proof.
  exact (X9_success_only_on_2xx (rt_ok "[1, true]") "/me" Options.empty initial
           (JArr [JNum 1; JBool true]) eq_refl).
Defined.

(** X10. The causes of a failure.  When [makeRequest] fails with an
    error, that error is one of these and no other:
    - the error of the credential source, consulted because neither the
      override nor the stored token was usable;
    - "No access token available";
    - the error of a transport call made by this call;
    - "MS365_MCP_CLIENT_SECRET not configured";
    - the error of the refresher, called by this call;
    - the classification of a response to one of this call's requests.
    In particular the error "Failed to refresh access token" of line 66
    is never raised by the adapter itself. *)
Theorem X10_failure_causes rt endpoint options st e :
  result_of (makeRequest rt endpoint options) st = inl e ->
  let evs := events_of (makeRequest rt endpoint options) st in
  (truthy (Options.accessToken options) = false
   /\ truthy (accessToken (this st)) = false
   /\ getToken rt (trace st) = inl e)
  \/ e = new_Error "No access token available"
  \/ (exists before req, In req (fetches evs)
                         /\ fetch rt (trace st ++ before)%list req = inl e)
  \/ e = new_Error "MS365_MCP_CLIENT_SECRET not configured"
  \/ (exists before rk cid sec tid,
        In (Refresh rk cid sec tid) evs
        /\ lib_refreshAccessToken rt (trace st ++ before)%list rk cid sec tid = inl e)
  \/ (exists before req r,
        In req (fetches evs)
        /\ fetch rt (trace st ++ before)%list req = inr r
        /\ classifyResponse r = inl e).
Proof.
  intros Hfail evs. subst evs. revert Hfail.
  unfold_methods; unfold finishRequest.
  repeat (next_case; cbn [fst snd this trace]).
  all: read_trace; rewrite ?app_cons_assoc in *.
  all: cbn [fetches In]; intros Hfail; try discriminate Hfail; injection Hfail as <-.
  all: try match goal with
         | H : as_truthy (or_else _ (Some ?t)) = None,
           H2 : as_truthy _ = Some ?t |- _ =>
             exfalso; apply as_truthy_Some in H2; destruct H2 as (_ & Hne & _);
             exact (or_else_truthy _ _ Hne H)
         end.
  all: first
         [ solve [left; repeat split; assumption]
         | solve [right; left; reflexivity]
         | solve [right; right; right; left; reflexivity]
         | solve [right; right; left; exists []; eexists;
                  rewrite app_nil_r; split; [|eassumption]; auto]
         | solve [right; right; left; do 2 eexists; split; [|eassumption]; auto]
         | solve [right; right; right; right; left; do 5 eexists;
                  split; [|eassumption]; auto 6]
         | solve [do 5 right; exists []; do 2 eexists; rewrite app_nil_r;
                  split; [|split; [eassumption|eassumption]]; auto]
         | solve [do 5 right; do 3 eexists;
                  split; [|split; [eassumption|eassumption]]; auto] ].
Qed.

(** The 403 of the scope example fails for the last cause: the
    classification of the response to the call's one request. *)
Lemma X10_witness :
  exists before req r,
    In req (fetches (events_of (makeRequest rt_forbidden "/me" Options.empty) initial))
    /\ fetch rt_forbidden (trace initial ++ before)%list req = inr r
    /\ classifyResponse r
       = inl (new_Error (scope_error_message forbidden_scope
                           "Insufficient privileges: scope")).
Proof.
  destruct (X10_failure_causes rt_forbidden "/me" Options.empty initial
              (new_Error (scope_error_message forbidden_scope
                            "Insufficient privileges: scope")) eq_refl)
    as [(_ & _ & H) | [H | [(b & q0 & _ & H) | [H | [(b & k & c & s & t & H & _) | H]]]]].
  - discriminate H.
  - discriminate H.
  - discriminate H.
  - discriminate H.
  - cbn in H. repeat (destruct H as [H|H]; [discriminate H|]). contradiction.
  - exact H.
Defined.

(** ** The envelope of a successful call *)

Lemma formatJsonResponse_isError (data : option json) (raw : bool) :
  isError (formatJsonResponse data raw) = None.
Proof.
  unfold formatJsonResponse.
  destruct (carries_headers data); destruct raw; try destruct (nullish _); reflexivity.
Qed.

Lemma formatJsonResponse_meta (data : option json) (raw : bool) :
  _meta (formatJsonResponse data raw) = option_map meta_of (carries_headers data).
Proof.
  unfold formatJsonResponse.
  destruct (carries_headers data); destruct raw; try destruct (nullish _); reflexivity.
Qed.

(** A call that keeps a 2xx response returns that response normalised
    and formatted. *)
Lemma graphRequest_ok rt endpoint options st r st2 :
  keeps rt endpoint options (after_info endpoint options st) r st2 ->
  (200 <= Response.status r <= 299)%N ->
  graphRequest rt endpoint options st
  = (inr (formatJsonResponse
            (Some (attachEtag options r (normalizeBody rt (Response.text r))))
            (flag (Options.rawResponse options))), st2).
Proof.
  intros Hk Hok. rewrite graphRequest_unfold.
  now rewrite (makeRequest_ok _ _ _ _ _ _ Hk Hok).
Qed.

Lemma has_key_attachEtag (options : Options.t) (r : Response.t) (v : json) :
  carries_headers (Some (attachEtag options r v)) = None
  <-> carries_headers (Some v) = None.
Proof.
  unfold attachEtag. destruct (flag (Options.includeHeaders options)); [|reflexivity].
  destruct v as [| | | | |fields]; try reflexivity.
  unfold with_etag, carries_headers, has_key.
  rewrite lookup_assign_other by discriminate.
  destruct (lookup "_headers" fields); split; intros H; now try discriminate H.
Qed.

(** X11. The envelope of [graphRequest] has [isError: true] when
    [makeRequest] failed, and no [isError] at all when it returned; an
    error envelope never has [_meta]. *)
Theorem X11_isError_exactly_on_failure rt endpoint options st :
  exists envelope,
    result_of (graphRequest rt endpoint options) st = inr envelope
    /\ isError envelope
       = match result_of (makeRequest rt endpoint options)
                         (after_info endpoint options st) with
         | inl _ => Some true
         | inr _ => None
         end
    /\ (isError envelope = Some true -> _meta envelope = None).
Proof.
  unfold result_of. rewrite graphRequest_unfold.
  destruct (makeRequest rt endpoint options _) as [[e|v] st']; cbn [fst].
  - exists (error_envelope e). repeat split.
  - eexists. split; [reflexivity|]. rewrite formatJsonResponse_isError.
    split; [reflexivity | discriminate].
Qed.

(** X12. The envelope of a successful call has [_meta] exactly when the
    body of the response is itself an object with a [_headers] key.
    Requesting [includeHeaders] does not produce [_meta]: the ETag it
    attaches stays in the text. *)
Theorem X12_meta_only_for_wrapped_bodies rt endpoint options st r st2 :
  keeps rt endpoint options (after_info endpoint options st) r st2 ->
  (200 <= Response.status r <= 299)%N ->
  exists envelope,
    result_of (graphRequest rt endpoint options) st = inr envelope
    /\ (_meta envelope <> None
        <-> exists fields,
              normalizeBody rt (Response.text r) = JObj fields
              /\ has_key "_headers" fields = true).
Proof.
  intros Hk Hok. unfold result_of. rewrite (graphRequest_ok _ _ _ _ _ _ Hk Hok).
  eexists. split; [reflexivity|]. cbn [fst].
  rewrite formatJsonResponse_meta.
  pose proof (has_key_attachEtag options r (normalizeBody rt (Response.text r))) as Hc.
  destruct (carries_headers (Some (attachEtag options r _))) as [f|] eqn:E1;
    destruct (normalizeBody rt (Response.text r)) as [| | | | |fields] eqn:E2;
    cbn [option_map carries_headers] in *;
    try (split; [intros H; now contradiction H | intros (f' & Hf & _); discriminate Hf]);
    try (exfalso; destruct Hc as [_ Hc]; specialize (Hc eq_refl); discriminate Hc).
  - destruct (has_key "_headers" fields) eqn:Hh.
    + split; [intros _; now exists fields | discriminate].
    + exfalso. destruct Hc as [_ Hc]. specialize (Hc eq_refl). discriminate Hc.
  - destruct (has_key "_headers" fields) eqn:Hh.
    + exfalso. destruct Hc as [Hc _]. specialize (Hc eq_refl). discriminate Hc.
    + split; [intros H; now contradiction H|].
      intros (f' & [= <-] & Hf). congruence.
Qed.

Lemma X12_witness :
  exists envelope,
    result_of (graphRequest (rt_headers [("ETag", "W/1")] "{}") "/me" opts_includeHeaders)
              initial = inr envelope
    /\ (_meta envelope <> None
        <-> exists fields,
              normalizeBody (rt_headers [("ETag", "W/1")] "{}") "{}" = JObj fields
              /\ has_key "_headers" fields = true).
Proof.
  assert (Hk : keeps (rt_headers [("ETag", "W/1")] "{}") "/me" opts_includeHeaders
                 (after_info "/me" opts_includeHeaders initial)
                 (ok_json [("ETag", "W/1")] "{}")
                 {| this := constructor;
                    trace := [LogInfo "/me" opts_includeHeaders; GetToken;
                              Fetch (buildRequest "/me" "T" opts_includeHeaders)] |}).
  { exists (Some "T"), "T",
      {| this := constructor; trace := [LogInfo "/me" opts_includeHeaders; GetToken] |}.
    split; [reflexivity | split; reflexivity]. }
  assert (Hok : (200 <= Response.status (ok_json [("ETag", "W/1")] "{}") <= 299)%N).
  { simpl. lia. }
  exact (X12_meta_only_for_wrapped_bodies _ _ _ _ _ _ Hk Hok).
Defined.

Example etag_stays_in_the_text :
  result_of (graphRequest (rt_headers [("ETag", "W/1")] "{}") "/me" opts_includeHeaders)
            initial
  = inr {| content := [text_item (Some ("{" ++ str1 newline ++ "  " ++ q "_etag" ++ ": "
                                        ++ q "W/1" ++ str1 newline ++ "}"))];
           _meta := None;
           isError := None |}.
Proof. reflexivity. Qed.

(** X13. The two synthetic bodies end to end.  When the kept 2xx
    response has an empty body, or a body that [JSON.parse] rejects, the
    text of the envelope is the serialisation of [{message:"OK!"}], or of
    [{message:"OK!", rawResponse: <body>}], with the ETag on it if
    requested: compact with [rawResponse], indented by two spaces
    without; the envelope has neither [_meta] nor [isError]. *)
Theorem X13_synthetic_bodies rt endpoint options st r st2 :
  keeps rt endpoint options (after_info endpoint options st) r st2 ->
  (200 <= Response.status r <= 299)%N ->
  Response.text r = "" \/ JSON_parse rt (Response.text r) = None ->
  let synthetic :=
    if String.eqb (Response.text r) "" then JObj [("message", JStr "OK!")]
    else JObj [("message", JStr "OK!"); ("rawResponse", JStr (Response.text r))] in
  let serialise :=
    if flag (Options.rawResponse options) then JSON_stringify else JSON_stringify_2 in
  result_of (graphRequest rt endpoint options) st
  = inr {| content :=
             [ {| type := "text";
                  text := Some (serialise (attachEtag options r synthetic)) |} ];
           _meta := None;
           isError := None |}.
Proof.
  intros Hk Hok Hbody synthetic serialise.
  unfold result_of. rewrite (graphRequest_ok _ _ _ _ _ _ Hk Hok). cbn [fst].
  assert (Hn : normalizeBody rt (Response.text r) = synthetic).
  { unfold normalizeBody, synthetic. rewrite nonempty_eqb.
    destruct (String.eqb (Response.text r) "") eqn:E; [reflexivity|].
    destruct Hbody as [Hb | Hb].
    - rewrite Hb in E. discriminate E.
    - now rewrite Hb. }
  rewrite Hn. unfold synthetic, serialise, attachEtag, with_etag.
  destruct (String.eqb (Response.text r) "");
    destruct (flag (Options.includeHeaders options));
    destruct (flag (Options.rawResponse options)); reflexivity.
Qed.

Lemma X13_witness :
  result_of (graphRequest (rt_ok "") "/me" Options.empty) initial
  = inr {| content :=
             [ {| type := "text";
                  text := Some ("{" ++ str1 newline ++ "  " ++ q "message" ++ ": "
                                ++ q "OK!" ++ str1 newline ++ "}") |} ];
           _meta := None;
           isError := None |}.
Proof.
  assert (Hk : keeps (rt_ok "") "/me" Options.empty
                 (after_info "/me" Options.empty initial) (ok_json [] "")
                 {| this := constructor;
                    trace := [LogInfo "/me" Options.empty; GetToken;
                              Fetch (buildRequest "/me" "T" Options.empty)] |}).
  { exists (Some "T"), "T",
      {| this := constructor; trace := [LogInfo "/me" Options.empty; GetToken] |}.
    split; [reflexivity | split; reflexivity]. }
  assert (Hok : (200 <= Response.status (ok_json [] "") <= 299)%N).
  { simpl. lia. }
  exact (X13_synthetic_bodies _ _ _ _ _ _ Hk Hok (or_introl eq_refl)).
Defined.

(** ** More on the stripping *)

Lemma strip_keys (fields : list (string * json)) :
  map fst (fields_of (stripOData (JObj fields)))
  = filter is_data_key (map fst fields).
Proof.
  cbn [stripOData fields_of].
  induction fields as [|[k x] fields IH]; [reflexivity|].
  cbn [map filter fst]. unfold is_data_key at 1.
  destruct (startsWith "@odata." k); cbn [negb map fst]; now rewrite IH.
Qed.

(** X14. Stripping is idempotent: a value that has been stripped is not
    changed by stripping it again.  It keeps the order of the keys: the
    keys of a stripped object are the keys of the object that do not
    begin with "@odata.", in their original order.  It keeps the length
    of every array. *)
Theorem X14_stripping_idempotent_and_ordered (v : json) :
  removeODataProps (removeODataProps v) = removeODataProps v
  /\ map fst (fields_of (removeODataProps v)) = filter is_data_key (map fst (fields_of v))
  /\ match v, removeODataProps v with
     | JArr items, JArr items' => List.length items' = List.length items
     | JArr _, _ => False
     | _, _ => True
     end.
Proof.
  split; [|split].
  - rewrite !removeODataProps_strip. apply stripOData_fixed, stripOData_free.
  - rewrite removeODataProps_strip. destruct v; try reflexivity. apply strip_keys.
  - destruct v; try exact I. cbn [removeODataProps]. apply length_map.
Qed.

(** ** setOAuthTokens followed by a call *)

(** X15. After [setOAuthTokens(a, r)] with [a] not empty, a call without
    a token override sends [a] in its first request and does not consult
    the credential source.  A call without a refresh-token override
    attempts a refresh only with [r]; when [r] is absent or empty no
    refresh is attempted, whatever refresh token was stored before. *)
Theorem X15_setOAuthTokens_then_call rt endpoint options a r st :
  a <> "" ->
  truthy (Options.accessToken options) = false ->
  truthy (Options.refreshToken options) = false ->
  let st1 := snd (setOAuthTokens a r st) in
  let evs := events_of (makeRequest rt endpoint options) st1 in
  count is_getToken evs = 0
  /\ first_fetch evs = Some (buildRequest endpoint a options)
  /\ (forall rk, In (RefreshAttempt rk) evs -> r = Some rk /\ rk <> "")
  /\ (truthy r = false -> count is_attempt evs = 0).
Proof.
  intros Hne Ho Hr st1 evs. subst st1 evs.
  destruct a as [|c a]; [contradiction|].
  assert (Hor : forall x, or_else (Options.refreshToken options) x = x).
  { intros x. unfold or_else. now rewrite Hr. }
  assert (Hnone : as_truthy (or_else r None) = as_truthy r).
  { unfold or_else. now destruct r as [[|]|]. }
  unfold setOAuthTokens, put_this. cbn [snd].
  unfold_methods. cbn [this trace accessToken refreshToken].
  rewrite Ho. cbn [truthy nonempty as_truthy fst snd this trace accessToken refreshToken].
  rewrite Hor, Hnone.
  repeat (next_case; cbn [fst snd this trace]).
  all: read_trace; rewrite ?app_cons_assoc in *.
  all: cbn [count filter is_getToken is_attempt List.length first_fetch In].
  all: use_truthy.
  all: split; [reflexivity | split; [reflexivity | split]]; try congruence.
  all: intros rk Hin; repeat destruct Hin as [Hin|Hin]; try discriminate Hin;
    try contradiction.
  all: injection Hin as <-; split; assumption.
Qed.

Lemma X15_witness :
  count is_attempt
    (events_of (makeRequest (runtime_const None unauthorized env_secret no_refresher)
                  "/me" Options.empty)
               (snd (setOAuthTokens "A" None st_stored))) = 0
  /\ first_fetch
       (events_of (makeRequest (runtime_const None unauthorized env_secret no_refresher)
                     "/me" Options.empty)
                  (snd (setOAuthTokens "A" None st_stored)))
     = Some (buildRequest "/me" "A" Options.empty).
Proof.
  assert (Hne : "A" <> "") by discriminate.
  destruct (X15_setOAuthTokens_then_call
              (runtime_const None unauthorized env_secret no_refresher)
              "/me" Options.empty "A" None st_stored Hne eq_refl eq_refl)
    as (_ & Hfirst & _ & Hnone).
  split; [exact (Hnone eq_refl) | exact Hfirst].
Defined.

(** ** What is logged *)

Lemma count_app (p : Event -> bool) (l1 l2 : list Event) :
  count p (l1 ++ l2)%list = count p l1 + count p l2.
Proof. unfold count. now rewrite filter_app, length_app. Qed.

Lemma makeRequest_logs rt endpoint options st :
  count is_log_error (events_of (makeRequest rt endpoint options) st)
  = match result_of (makeRequest rt endpoint options) st with
    | inr _ => 0
    | inl _ =>
        if Nat.eqb (count is_fetch (events_of (makeRequest rt endpoint options) st)) 0
        then 0 else 1
    end.
Proof.
  run_cases; rewrite ?skipn_own, ?skipn_all in *;
    cbn [count filter is_fetch is_log_error List.length Nat.eqb] in *; congruence.
Qed.

(** X16. What [graphRequest] logs.  It logs the call first, with the
    endpoint and the options as they were passed.  A call that succeeds
    logs no error.  A call that fails logs its error once when it failed
    before any transport call (no token, or the credential source
    failed), and twice otherwise: once in [makeRequest], once in
    [graphRequest]. *)
Theorem X16_what_is_logged rt endpoint options st :
  let evs := events_of (graphRequest rt endpoint options) st in
  hd_error evs = Some (LogInfo endpoint options)
  /\ count is_log_error evs
     = match result_of (makeRequest rt endpoint options)
                       (after_info endpoint options st) with
       | inr _ => 0
       | inl _ => if Nat.eqb (count is_fetch evs) 0 then 1 else 2
       end.
Proof.
  intros evs. subst evs. rewrite graphRequest_events. split; [reflexivity|].
  change (LogInfo endpoint options :: ?l)%list with ([LogInfo endpoint options] ++ l)%list.
  rewrite !count_app, makeRequest_logs.
  destruct (result_of (makeRequest rt endpoint options) (after_info endpoint options st));
    cbn [count filter is_log_error is_fetch List.length];
    rewrite ?Nat.add_0_r, ?Nat.add_0_l; [|reflexivity].
  destruct (Nat.eqb (count is_fetch (events_of (makeRequest rt endpoint options)
                                        (after_info endpoint options st))) 0);
    reflexivity.
Qed.

(** ** The flags and the order of events *)

(** X17. The flags [rawResponse] and [includeHeaders] never reach the
    outside: two calls to [makeRequest] that differ only in these flags
    make the same transport and refresher calls, log the same errors,
    leave the same stored pair, and fail with the same error if either
    fails. *)
Theorem X17_flags_do_not_reach_the_transport rt endpoint options raw include st :
  events_of (makeRequest rt endpoint (with_flags options raw include)) st
  = events_of (makeRequest rt endpoint options) st
  /\ client_after (makeRequest rt endpoint (with_flags options raw include)) st
     = client_after (makeRequest rt endpoint options) st
  /\ (forall e,
        result_of (makeRequest rt endpoint (with_flags options raw include)) st = inl e
        <-> result_of (makeRequest rt endpoint options) st = inl e).
Proof.
  assert (Hb : forall tok, buildRequest endpoint tok (with_flags options raw include)
                           = buildRequest endpoint tok options) by reflexivity.
  unfold_methods; unfold finishRequest.
  cbn [with_flags Options.accessToken Options.refreshToken].
  repeat match goal with
         | |- context [buildRequest endpoint ?t (with_flags options raw include)] =>
             rewrite (Hb t)
         end.
  repeat first [ rewrite Hb
               | next_case; cbn [fst snd this trace] ].
  all: repeat split; intros; congruence.
Qed.

(** X18. The order of what a call to [makeRequest] does: the credential
    source is consulted first or not at all; the refresh is attempted
    only after a transport call, the refresher is called only after the
    attempt, the retry comes only after the refresher, and nothing
    follows the retry but the log of its failure; an error is logged
    last, and only after a transport call. *)
Theorem X18_order_of_events rt endpoint options st :
  call_shape (events_of (makeRequest rt endpoint options) st) = true.
Proof. run_cases; reflexivity. Qed.
